(** * chef_validator: the compute client plugin and the password gateway

    A shallow embedding of
    - [chef_validator/engine/clients/nova.py] (class [NovaClientPlugin]) and
    - [chef_validator/api/middleware/auth_password.py]
      (class [KeystonePasswordAuthProtocol]),
    followed by the properties of the specification that concern them.

    Python values are embedded as the inductive [pyval]; a call that may
    raise returns a [result]; dictionaries are stdpp finite maps keyed by
    strings; calls to the provider are parameters of the enclosing section,
    one outcome per round trip. *)

From Stdlib Require Import ZArith String Ascii List Bool Lia.
From stdpp Require Import base option list gmap strings pretty fin_maps.

Set Warnings "-register-all".

Local Open Scope Z_scope.
Local Open Scope string_scope.

(* ===================================================================== *)
(** ** Python values, exceptions and results *)
(* ===================================================================== *)
Module Py.

(** The fragment of Python's value universe the two modules handle. *)
Inductive pyval : Type :=
| PyNone
| PyBool (b : bool)
| PyInt (z : Z)
| PyStr (s : string)
| PyList (l : list pyval)
| PyDict (m : gmap string pyval).

(** Truth value of an object, as [if x:] / [not x] compute it. *)
Definition truthy (v : pyval) : bool :=
  match v with
  | PyNone => false
  | PyBool b => b
  | PyInt z => negb (Z.eqb z 0)
  | PyStr s => negb (String.eqb s "")
  | PyList l => match l with [] => false | _ => true end
  | PyDict m => negb (Nat.eqb (size m) 0)
  end.

(** [isinstance(v, six.string_types)] *)
Definition is_string (v : pyval) : bool :=
  match v with PyStr _ => true | _ => false end.

(** [v == s] for a string literal [s]. *)
Definition eq_str (v : pyval) (s : string) : bool :=
  match v with PyStr t => String.eqb t s | _ => false end.

(** [v == n] for an integer literal [n] other than 0 and 1 (for which a
    bool would compare equal too). *)
Definition eq_int (v : pyval) (n : Z) : bool :=
  match v with PyInt z => Z.eqb z n | _ => false end.

(** The exception classes of [novaclient.exceptions] that the plugin names,
    [OtherClientError] standing for every other subclass of
    [ClientException], [NoUniqueMatch] for the one that derives from
    [Exception] directly. *)
Inductive nova_class : Type :=
| ClientException
| BadRequest
| NotFound
| Conflict
| OverLimit
| OtherClientError
| NoUniqueMatch.

#[global] Instance nova_class_eq_dec : EqDecision nova_class.
Proof. solve_decision. Defined.

(** [issubclass(c, d)] *)
Definition issubclass (c d : nova_class) : bool :=
  bool_decide (c = d) ||
  match d, c with
  | ClientException, NoUniqueMatch => false
  | ClientException, _ => true
  | _, _ => false
  end.

(** An exception object of the provider client.  [exc_http_status] and
    [exc_code] are [None] when the object has no such attribute. *)
Record nova_exception : Type := {
  exc_class : nova_class;
  exc_http_status : option pyval;
  exc_code : option pyval;
  exc_message : string
}.

(** The classes of [keystoneclient.exceptions] the gateway names. *)
Inductive keystone_class : Type :=
| Unauthorized
| Forbidden
| KsNotFound
| AuthorizationFailure
| OtherKeystoneError.

Inductive exn : Type :=
| NovaError (e : nova_exception)
| KeystoneError (k : keystone_class)
| AttributeError (obj attr : string)
| KeyError (key : string)
| TypeError
| StackValidationFailed (message : string)
| EntityNotFound (entity name : string)
| ResourceInError (resource_status status_reason : string)
| ResourceUnknownStatus (resource_status result_ : string).

Inductive result (A : Type) : Type :=
| Return (a : A)
| Raise (e : exn).
Arguments Return {A} a.
Arguments Raise {A} e.

#[global] Instance result_ret : MRet result := @Return.
#[global] Instance result_bind : MBind result :=
  fun A B f c => match c with Return a => f a | Raise e => Raise e end.

(** [getattr(o, name, default)] on an attribute that may be missing. *)
Definition getattr {A} (attr : option A) (default : A) : A :=
  match attr with Some v => v | None => default end.

(** [d[k]] *)
Definition getitem (d : pyval) (k : string) : result pyval :=
  match d with
  | PyDict m => match m !! k with Some v => Return v | None => Raise (KeyError k) end
  | _ => Raise TypeError
  end.

(** [needle in hay] on strings. *)
Fixpoint contains (needle hay : string) : bool :=
  String.prefix needle hay ||
  match hay with
  | EmptyString => false
  | String _ rest => contains needle rest
  end.

(** [s.split(sep)[0]]: the text before the first [sep]. *)
Fixpoint split_head (sep : ascii) (s : string) : string :=
  match s with
  | EmptyString => EmptyString
  | String c rest =>
      if Ascii.eqb c sep then EmptyString else String c (split_head sep rest)
  end.

(** [sep.join(l)] *)
Fixpoint join (sep : string) (l : list string) : string :=
  match l with
  | [] => ""
  | [x] => x
  | x :: rest => x +:+ sep +:+ join sep rest
  end.

Section Str.
(** [str] of a list or a dict is Python's [repr], taken as given. *)
Variable repr : pyval -> string.

(** ['%s' % v] *)
Definition py_str (v : pyval) : string :=
  match v with
  | PyNone => "None"
  | PyBool true => "True"
  | PyBool false => "False"
  | PyInt z => pretty z
  | PyStr s => s
  | _ => repr v
  end.
End Str.

End Py.

(* ===================================================================== *)
(** ** engine/clients/nova.py *)
(* ===================================================================== *)
Module Nova.
Import Py.

(** A server object as the provider client returns it: the attributes the
    plugin reads.  [srv_task_state] is the attribute
    [OS-EXT-STS:task_state]; it and [srv_fault] are [None] when the object
    has no such attribute. *)
Record server : Type := {
  srv_id : string;
  srv_name : string;
  srv_status : string;
  srv_task_state : option pyval;
  srv_fault : option (gmap string pyval);
  srv_metadata : gmap string pyval
}.

Definition with_status (s : server) (st : string) : server :=
  {| srv_id := srv_id s; srv_name := srv_name s; srv_status := st;
     srv_task_state := srv_task_state s; srv_fault := srv_fault s;
     srv_metadata := srv_metadata s |}.

(** What [_check_active] accepts: a server ID or a server object. *)
Inductive server_ref : Type :=
| ServerId (server_id : string)
| ServerObj (s : server).

Definition deferred_server_statuses : list string :=
  ["BUILD"; "HARD_REBOOT"; "PASSWORD"; "REBOOT"; "RESCUE"; "RESIZE";
   "REVERT_RESIZE"; "SHUTOFF"; "SUSPENDED"; "VERIFY_RESIZE"].

(** The names the plugin reads from the module-level name [resource]. *)
Record resource_module : Type := {
  mod_ResourceInError : string -> string -> exn;
  mod_ResourceUnknownStatus : string -> string -> exn
}.

(** Line 41 of the source: [resource = None] (under a todo comment). *)
Definition resource : option resource_module := None.

(** Attribute access [m.attr] on the value bound to a module-level name. *)
Definition module_attr {A} (m : option resource_module) (attr : string)
    (proj : resource_module -> A) : result A :=
  match m with
  | Some r => Return (proj r)
  | None => Raise (AttributeError "NoneType" attr)
  end.

Definition is_not_found (ex : exn) : bool :=
  match ex with NovaError e => issubclass (exc_class e) NotFound | _ => false end.

Definition is_over_limit (ex : exn) : bool :=
  match ex with NovaError e => issubclass (exc_class e) OverLimit | _ => false end.

Definition is_bad_request (ex : exn) : bool :=
  match ex with NovaError e => issubclass (exc_class e) BadRequest | _ => false end.

Definition is_conflict (ex : exn) : bool :=
  match ex with NovaError e => issubclass (exc_class e) Conflict | _ => false end.

(** [getattr(ex, 'http_status', None) or getattr(ex, 'code', None)]: the
    second operand is taken when the first is false as a truth value. *)
Definition is_unprocessable_entity (ex : exn) : bool :=
  match ex with
  | NovaError e =>
      let hs := getattr (exc_http_status e) PyNone in
      let http_status := if truthy hs then hs else getattr (exc_code e) PyNone in
      issubclass (exc_class e) ClientException && eq_int http_status 422
  | _ => false
  end.

(** Modelled from the spec: [ClientPlugin.ignore_not_found] of
    [engine/clients/client_plugin.py], which is not among the sources.  A
    not-found error is translated into "operation complete" by the delete
    check; an error the plugin does not recognise is raised again
    unchanged. *)
Definition ignore_not_found (ex : exn) : result unit :=
  if is_not_found ex then Return tt else Raise ex.

(** [getattr(exc, 'http_status', getattr(exc, 'code', None)) in (500, 503)]:
    the [code] attribute is read only as the default of a missing
    [http_status]. *)
Definition transient_status (exc : nova_exception) : bool :=
  let st := getattr (exc_http_status exc) (getattr (exc_code exc) PyNone) in
  eq_int st 500 || eq_int st 503.

(** The server's status: some clouds append extra (STATUS) strings. *)
Definition get_status (s : server) : string :=
  split_head "(" (srv_status s).

Section Servers.
(** [self.client().servers.get]: the outcome of the read the provider is
    asked for.  Each operation below performs at most one such read, and
    [server.get()] on a server object is the same read for its own id,
    after which the object carries the attributes just read. *)
Variable servers_get : string -> result server.
Variable repr : pyval -> string.

(** Substitutes Nova's NotFound for chef_validator's EntityNotFound. *)
Definition get_server (server_id : string) : result server :=
  match servers_get server_id with
  | Return s => Return s
  | Raise ex =>
      if is_not_found ex then Raise (EntityNotFound "Server" server_id)
      else Raise ex
  end.

(** Returns [None] for non-critical API errors (the warnings it logs are
    not modelled). *)
Definition fetch_server (server_id : string) : result (option server) :=
  match servers_get server_id with
  | Return s => Return (Some s)
  | Raise (NovaError exc) =>
      if issubclass (exc_class exc) OverLimit then Return None
      else if issubclass (exc_class exc) ClientException then
        if transient_status exc then Return None
        else Raise (NovaError exc)
      else Raise (NovaError exc)
  | Raise ex => Raise ex
  end.

(** [server.get()] with the same tolerance; the result is the object
    after the call. *)
Definition refresh_server (s : server) : result server :=
  match servers_get (srv_id s) with
  | Return s' => Return s'
  | Raise (NovaError exc) =>
      if issubclass (exc_class exc) OverLimit then Return s
      else if issubclass (exc_class exc) ClientException then
        if transient_status exc then Return s
        else Raise (NovaError exc)
      else Raise (NovaError exc)
  | Raise ex => Raise ex
  end.

Definition _check_active (server : server_ref) (res_name : string)
    : result bool :=
  found ← match server with
          | ServerId server_id =>
              server ← fetch_server server_id;
              match server with
              | None => Return None
              | Some s => Return (Some (s, get_status s))
              end
          | ServerObj s =>
              let status := get_status s in
              if negb (String.eqb status "ACTIVE") then
                s' ← refresh_server s;
                Return (Some (s', get_status s'))
              else Return (Some (s, status))
          end;
  match found with
  | None => Return false
  | Some (server, status) =>
      if bool_decide (status ∈ deferred_server_statuses) then Return false
      else if String.eqb status "ACTIVE" then Return true
      else if String.eqb status "ERROR" then
        let fault := getattr (srv_fault server) ∅ in
        cls ← module_attr resource "ResourceInError" mod_ResourceInError;
        Raise (cls status
                 ("Message: " +:+
                  py_str repr (default (PyStr "Unknown") (fault !! "message"))
                  +:+ ", Code: " +:+
                  py_str repr (default (PyStr "Unknown") (fault !! "code"))))
      else
        cls ← module_attr resource "ResourceUnknownStatus"
                mod_ResourceUnknownStatus;
        Raise (cls (srv_status server) (res_name +:+ " is not active"))
  end.

(** Wait for server to disappear from Nova. *)
Definition check_delete_server_complete (server_id : string) : result bool :=
  match fetch_server server_id with
  | Raise exc => _ ← ignore_not_found exc; Return true
  | Return None => Return false
  | Return (Some server) =>
      let task_state_in_nova := getattr (srv_task_state server) PyNone in
      if eq_str task_state_in_nova "deleting" then Return false
      else
        let status := get_status server in
        if bool_decide (status ∈ ["DELETED"; "SOFT_DELETED"]) then Return true
        else if String.eqb status "ERROR" then
          let fault := getattr (srv_fault server) ∅ in
          let message := default (PyStr "Unknown") (fault !! "message") in
          let code := default PyNone (fault !! "code") in
          let errmsg :=
            "Server " +:+ srv_name server +:+ " delete failed: (" +:+
            py_str repr code +:+ ") " +:+ py_str repr message in
          cls ← module_attr resource "ResourceInError" mod_ResourceInError;
          Raise (cls status errmsg)
        else Return false
  end.
End Servers.

(** *** Metadata *)

(** The calls the plugin issues on [client.servers] to change a server's
    metadata, in the order issued. *)
Inductive api_call : Type :=
| delete_meta_call (s : server) (keys : list string)
| set_meta_call (s : server) (metadata : gmap string pyval).

(** [six.iterkeys(d)]; the order is the map's own, as a dict's is. *)
Definition iterkeys {A} (d : gmap string A) : list string :=
  (map_to_list d).*1.

Section Metadata.
(** [jsonutils.dumps] of oslo.serialization. *)
Variable dumps : pyval -> string.
(** The provider's answers to [delete_meta] and [set_meta]. *)
Variable delete_meta : server -> list string -> result unit.
Variable set_meta : server -> gmap string pyval -> result unit.

(** Serialize non-string metadata values before sending them to Nova. *)
Definition meta_serialize (metadata : pyval) : result (gmap string pyval) :=
  match metadata with
  | PyDict m =>
      Return ((fun value => if is_string value then value
                            else PyStr (dumps value)) <$> m)
  | _ => Raise (StackValidationFailed "nova server metadata needs to be a Map.")
  end.

(** Delete/Add the metadata in nova as needed.  The result pairs the calls
    issued with the outcome. *)
Definition meta_update (server : server) (metadata : pyval)
    : list api_call * result unit :=
  match meta_serialize metadata with
  | Raise e => ([], Raise e)
  | Return metadata =>
      let current_md := srv_metadata server in
      let to_del := filter (fun key => metadata !! key = None)
                           (iterkeys current_md) in
      let deleted :=
        if (0 <? length to_del)%nat
        then ([delete_meta_call server to_del], delete_meta server to_del)
        else ([], Return tt) in
      match deleted.2 with
      | Raise e => (deleted.1, Raise e)
      | Return _ =>
          ((deleted.1 ++ [set_meta_call server metadata])%list,
           set_meta server metadata)
      end
  end.
End Metadata.

(** *** Console urls *)

Inductive console_method : Type :=
| get_vnc_console
| get_spice_console
| get_rdp_console
| get_serial_console.

Definition console_methods : gmap string console_method :=
  list_to_map [("novnc", get_vnc_console);
               ("xvpvnc", get_vnc_console);
               ("spice-html5", get_spice_console);
               ("rdp-html5", get_rdp_console);
               ("serial", get_serial_console)].

Section ConsoleUrls.
(** [server.get_*_console(console_type)]: the provider's answer. *)
Variable call_console : console_method -> string -> result pyval.

(** [ConsoleUrls.__getitem__] *)
Definition ConsoleUrls_getitem (key : string) : result pyval :=
  match console_methods !! key with
  | None => Raise (KeyError key)
  | Some method =>
      match (r ← call_console method key;
             console ← getitem r "console";
             getitem console "url") with
      | Return url => Return url
      | Raise (NovaError e) =>
          if issubclass (exc_class e) BadRequest then
            let unavailable := "Unavailable console type" in
            if contains unavailable (exc_message e)
            then Return (PyStr (exc_message e))
            else Raise (NovaError e)
          else Raise (NovaError e)
      | Raise ex => Raise ex
      end
  end.
End ConsoleUrls.

(** [ConsoleUrls.__len__] *)
Definition ConsoleUrls_len : nat := size console_methods.

(** [ConsoleUrls.__iter__] *)
Definition ConsoleUrls_iter : list string := iterkeys console_methods.

(** *** Boot payload *)

(** [string.Template]: the delimiter is [$]; an identifier is
    [[_a-z][_a-z0-9]*], matched ignoring case. *)
Definition is_idstart (c : ascii) : bool :=
  let n := nat_of_ascii c in
  Ascii.eqb c "_" || ((97 <=? n) && (n <=? 122))%nat
                  || ((65 <=? n) && (n <=? 90))%nat.

Definition is_idchar (c : ascii) : bool :=
  let n := nat_of_ascii c in
  is_idstart c || ((48 <=? n) && (n <=? 57))%nat.

(** Where the scan of a template stands: in plain text, after a delimiter,
    inside [$name], after [${], inside [${name]. *)
Inductive tstate : Type :=
| TText
| TDelim
| TNamed (name : string)
| TBrace
| TBraced (name : string).

(** [mapping[name]] as text, or the placeholder as written when the
    mapping has no such key. *)
Definition convert (mapping : gmap string string) (name original : string)
    : string :=
  match mapping !! name with Some v => v | None => original end.

(** [Template.pattern.sub(convert, template)] of [safe_substitute]: [$$]
    becomes [$], [$name] and [${name}] are replaced when the mapping has
    the name and kept otherwise, and any other [$] is kept. *)
Fixpoint scan (mapping : gmap string string) (st : tstate) (s : string)
    : string :=
  match s with
  | EmptyString =>
      match st with
      | TText => ""
      | TDelim => "$"
      | TNamed name => convert mapping name ("$" +:+ name)
      | TBrace => "${"
      | TBraced name => "${" +:+ name
      end
  | String c rest =>
      let text :=
        if Ascii.eqb c "$" then scan mapping TDelim rest
        else String c (scan mapping TText rest) in
      match st with
      | TText => text
      | TDelim =>
          if Ascii.eqb c "$" then String "$" (scan mapping TText rest)
          else if is_idstart c then scan mapping (TNamed (String c "")) rest
          else if Ascii.eqb c "{" then scan mapping TBrace rest
          else "$" +:+ text
      | TNamed name =>
          if is_idchar c
          then scan mapping (TNamed (name +:+ String c "")) rest
          else convert mapping name ("$" +:+ name) +:+ text
      | TBrace =>
          if is_idstart c then scan mapping (TBraced (String c "")) rest
          else "${" +:+ text
      | TBraced name =>
          if is_idchar c
          then scan mapping (TBraced (name +:+ String c "")) rest
          else if Ascii.eqb c "}"
          then convert mapping name ("${" +:+ name +:+ "}")
               +:+ scan mapping TText rest
          else "${" +:+ name +:+ text
      end
  end.

Definition safe_substitute (template : string) (mapping : gmap string string)
    : string :=
  scan mapping TText template.

(** [p.rfind(c)], [-1] when [c] does not occur. *)
Fixpoint rfind (c : ascii) (p : string) : Z :=
  match p with
  | EmptyString => -1
  | String d rest =>
      let i := rfind c rest in
      if (0 <=? i)%Z then (i + 1)%Z
      else if Ascii.eqb d c then 0%Z else (-1)%Z
  end.

Fixpoint all_dots (p : string) : bool :=
  match p with
  | EmptyString => true
  | String c rest => Ascii.eqb c "." && all_dots rest
  end.

(** [os.path.splitext(p)[0]] (posixpath). *)
Definition splitext_root (p : string) : string :=
  let sepIndex := rfind "/" p in
  let dotIndex := rfind "." p in
  if (sepIndex <? dotIndex)%Z then
    let filenameIndex := Z.to_nat (sepIndex + 1) in
    if all_dots (substring filenameIndex (Z.to_nat dotIndex - filenameIndex) p)
    then p
    else substring 0 (Z.to_nat dotIndex) p
  else p.

(** A [MIMEText] part: payload, subtype of [text/...], and the filename of
    its [Content-Disposition: attachment] header. *)
Record mime_text : Type := {
  mt_payload : option string;
  mt_subtype : string;
  mt_filename : option string
}.

(** An entry of [attachments]: (content, filename[, subtype]). *)
Definition attachment : Type := (option string * option string * option string).

(** A parsed [email] message, as far as [build_userdata] looks at it: its
    number of header fields (the truth value of a message is its [len]),
    whether it is multipart, and for each part of its payload the part's
    payload, filename and content subtype. *)
Record message : Type := {
  msg_len : nat;
  msg_is_multipart : bool;
  msg_parts : list attachment
}.

(** The options of [cfg.CONF] the plugin reads. *)
Record conf : Type := {
  chef_validator_watch_server_url : string;
  chef_validator_metadata_server_url : string;
  instance_connection_is_secure : pyval;
  instance_connection_https_validate_certificates : pyval
}.

Definition nl : string := String (ascii_of_nat 10) "".

Section Userdata.
Variable CONF : conf.
Variable repr : pyval -> string.
Variable dumps : pyval -> string.
(** [pkgutil.get_data('chef_validator', 'cloudinit/%s' % fn)] *)
Variable read_cloudinit_file : string -> string.
(** [email.message_from_string] *)
Variable message_from_string : option string -> result message.
(** [urlparse.urlparse(url).hostname] *)
Variable hostname : string -> option string.
(** [MIMEMultipart(_subparts=subparts).as_string()] *)
Variable as_string : list mime_text -> string.

Definition make_subpart (a : attachment) : result mime_text :=
  let '(content, filename, subtype) := a in
  subtype ← match subtype with
            | Some st => Return st
            | None =>
                match filename with
                | Some fn => Return (splitext_root fn)
                | None => Raise (AttributeError "NoneType" "rfind")
                end
            end;
  Return {| mt_payload := content; mt_subtype := subtype;
            mt_filename := filename |}.

Definition str_or_none (o : option string) : string :=
  py_str repr (from_option PyStr PyNone o).

(** Build multipart data blob for CloudInit.  [None] as [metadata] is
    [PyNone]; the result is [userdata] itself for the RAW format and the
    multipart mime as a string otherwise. *)
Definition build_userdata (metadata : pyval) (userdata : option string)
    (instance_user : option string) (user_data_format : string)
    : result (option string) :=
  if String.eqb user_data_format "RAW" then Return userdata
  else
    let is_cfntools := String.eqb user_data_format "chef_validator_CFNTOOLS" in
    let is_software_config := String.eqb user_data_format "SOFTWARE_CONFIG" in
    let '(config_custom_user, boothook_custom_user) :=
      match instance_user with
      | Some u =>
          if truthy (PyStr u) then
            ("user: " +:+ u,
             "useradd -m " +:+ u +:+ nl +:+
             "echo -e '" +:+ u +:+ "\tALL=(ALL)\tNOPASSWD: ALL' >> /etc/sudoers"
             +:+ nl)
          else ("", "")
      | None => ("", "")
      end in
    let cloudinit_config :=
      safe_substitute (read_cloudinit_file "config")
                      {[ "add_custom_user" := config_custom_user ]} in
    let cloudinit_boothook :=
      safe_substitute (read_cloudinit_file "boothook.sh")
                      {[ "add_custom_user" := boothook_custom_user ]} in
    let attachments : list attachment :=
      [(Some cloudinit_config, Some "cloud-config", None);
       (Some cloudinit_boothook, Some "boothook.sh", Some "cloud-boothook");
       (Some (read_cloudinit_file "part_handler.py"), Some "part-handler.py",
        None)] in
    let attachments :=
      if is_cfntools then
        (attachments ++ [(userdata, Some "cfn-userdata", Some "x-cfninitdata")])%list
      else if is_software_config then
        let userdata_parts :=
          match message_from_string userdata with
          | Return m => Some m
          | Raise _ => None
          end in
        match userdata_parts with
        | Some m =>
            if (0 <? msg_len m)%nat && msg_is_multipart m
            then (attachments ++ msg_parts m)%list
            else (attachments ++
                  [(userdata, Some "userdata", Some "x-shellscript")])%list
        | None =>
            (attachments ++
             [(userdata, Some "userdata", Some "x-shellscript")])%list
        end
      else attachments in
    let attachments :=
      if is_cfntools then
        (attachments ++ [(Some (read_cloudinit_file "loguserdata.py"),
                          Some "loguserdata.py", Some "x-shellscript")])%list
      else attachments in
    let attachments :=
      if truthy metadata then
        (attachments ++ [(Some (dumps metadata), Some "cfn-init-data",
                          Some "x-cfninitdata")])%list
      else attachments in
    let attachments :=
      (attachments ++ [(Some (chef_validator_watch_server_url CONF),
                        Some "cfn-watch-server", Some "x-cfninitdata")])%list in
    let attachments :=
      if is_cfntools then
        let cfn_url := hostname (chef_validator_metadata_server_url CONF) in
        let cw_url := hostname (chef_validator_watch_server_url CONF) in
        let is_secure := instance_connection_is_secure CONF in
        let vcerts := instance_connection_https_validate_certificates CONF in
        let boto_cfg :=
          join nl ["[Boto]";
                   "debug = 0";
                   "is_secure = " +:+ py_str repr is_secure;
                   "https_validate_certificates = " +:+ py_str repr vcerts;
                   "cfn_region_name = chef_validator";
                   "cfn_region_endpoint = " +:+ str_or_none cfn_url;
                   "cloudwatch_region_name = chef_validator";
                   "cloudwatch_region_endpoint = " +:+ str_or_none cw_url] in
        (attachments ++
         [(Some (chef_validator_metadata_server_url CONF),
           Some "cfn-metadata-server", Some "x-cfninitdata");
          (Some boto_cfg, Some "cfn-boto-cfg", Some "x-cfninitdata")])%list
      else attachments in
    subparts ← mapM make_subpart attachments;
    Return (Some (as_string subparts)).
End Userdata.

End Nova.

(* ===================================================================== *)
(** ** api/middleware/auth_password.py *)
(* ===================================================================== *)
Module AuthPassword.
Import Py.

(** The response of [webob.exc.HTTPUnauthorized(detail, headers)]: its
    status code, its detail and the headers it was given (those webob adds
    on its own are left out). *)
Record response : Type := {
  resp_status : Z;
  resp_detail : string;
  resp_headers : list (string * string)
}.

Definition HTTPUnauthorized (detail : string) (headers : list (string * string))
    : response :=
  {| resp_status := 401; resp_detail := detail; resp_headers := headers |}.

(** What a request makes the gateway do besides answering: ask the auth
    service for an access (with the credentials of the request context),
    and hand the request to the wrapped application. *)
Inductive effect : Type :=
| get_access_call (username password tenant auth_url : pyval)
| app_call (env : gmap string pyval).

(** [type(v).__name__] *)
Definition type_name (v : pyval) : string :=
  match v with
  | PyNone => "NoneType"
  | PyBool _ => "bool"
  | PyInt _ => "int"
  | PyStr _ => "str"
  | PyList _ => "list"
  | PyDict _ => "dict"
  end.

(** [d.get(k)]: of the values here only a dict has the method. *)
Definition dict_get (d : pyval) (k : string) : result pyval :=
  match d with
  | PyDict m => Return (default PyNone (m !! k))
  | _ => Raise (AttributeError (type_name d) "get")
  end.

(** The values a [for] loop over [v] visits. *)
Definition iterate (v : pyval) : result (list pyval) :=
  match v with
  | PyList l => Return l
  | PyDict m => Return (PyStr <$> (map_to_list m).*1)
  | PyStr s => Return ((fun c => PyStr (String c "")) <$> list_ascii_of_string s)
  | _ => Raise TypeError
  end.

(** [','.join(l)]: every item has to be a string. *)
Definition join_names (l : list pyval) : result string :=
  names ← mapM (fun v => match v with
                         | PyStr s => Return s
                         | _ => Raise TypeError
                         end) l;
  Return (join "," names).

(** The locals of [_build_user_headers] after its [if]. *)
Record identity : Type := {
  keystone_token_info : pyval;
  tenant_id : pyval;
  tenant_name : pyval;
  user_id : pyval;
  user_name : pyval;
  roles : string;
  service_catalog : pyval;
  auth_token : pyval
}.

(** Build headers that represent authenticated user from auth token. *)
Definition _build_user_headers (token_info : pyval)
    : result (gmap string pyval) :=
  version ← dict_get token_info "version";
  ident ←
    (if eq_str version "v3" then
       project ← getitem token_info "project";
       tenant_id ← getitem project "id";
       project ← getitem token_info "project";
       tenant_name ← getitem project "name";
       user ← getitem token_info "user";
       user_id ← getitem user "id";
       user ← getitem token_info "user";
       user_name ← getitem user "name";
       role_list ← getitem token_info "roles";
       role_list ← iterate role_list;
       names ← mapM (fun role => getitem role "name") role_list;
       roles ← join_names names;
       auth_token ← getitem token_info "auth_token";
       Return {| keystone_token_info := PyDict {[ "token" := token_info ]};
                 tenant_id := tenant_id; tenant_name := tenant_name;
                 user_id := user_id; user_name := user_name;
                 roles := roles; service_catalog := PyNone;
                 auth_token := auth_token |}
     else
       token ← getitem token_info "token";
       tenant ← getitem token "tenant";
       tenant_id ← getitem tenant "id";
       token ← getitem token_info "token";
       tenant ← getitem token "tenant";
       tenant_name ← getitem tenant "name";
       user ← getitem token_info "user";
       user_id ← getitem user "id";
       user ← getitem token_info "user";
       user_name ← getitem user "name";
       user ← getitem token_info "user";
       role_list ← getitem user "roles";
       role_list ← iterate role_list;
       names ← mapM (fun role => getitem role "name") role_list;
       roles ← join_names names;
       service_catalog ← getitem token_info "serviceCatalog";
       token ← getitem token_info "token";
       auth_token ← getitem token "id";
       Return {| keystone_token_info := token_info;
                 tenant_id := tenant_id; tenant_name := tenant_name;
                 user_id := user_id; user_name := user_name;
                 roles := roles; service_catalog := service_catalog;
                 auth_token := auth_token |});
  Return (list_to_map
            [("keystone.token_info", keystone_token_info ident);
             ("HTTP_X_IDENTITY_STATUS", PyStr "Confirmed");
             ("HTTP_X_PROJECT_ID", tenant_id ident);
             ("HTTP_X_PROJECT_NAME", tenant_name ident);
             ("HTTP_X_USER_ID", user_id ident);
             ("HTTP_X_USER_NAME", user_name ident);
             ("HTTP_X_ROLES", PyStr (roles ident));
             ("HTTP_X_SERVICE_CATALOG", service_catalog ident);
             ("HTTP_X_AUTH_TOKEN", auth_token ident)]).

(** The keystone errors [__call__] catches. *)
Definition context_build_failed (k : keystone_class) : bool :=
  match k with
  | Unauthorized | Forbidden | KsNotFound | AuthorizationFailure => true
  | OtherKeystoneError => false
  end.

Section Gateway.
Variable repr : pyval -> string.
(** [context.RequestContext(username, password, tenant, auth_url,
    is_admin=False).auth_plugin.get_access(self.session)]: the answer of
    the auth service. *)
Variable get_access : pyval -> pyval -> pyval -> pyval -> result pyval.
(** [self.app]: the wrapped application. *)
Variable app : gmap string pyval -> response.

(** Redirect client to auth server. *)
Definition _reject_request (env : gmap string pyval) (auth_url : pyval)
    : response :=
  let headers :=
    [("WWW-Authenticate", "Keystone uri='" +:+ py_str repr auth_url +:+ "'")] in
  HTTPUnauthorized "Authentication required" headers.

(** [KeystonePasswordAuthProtocol.__call__]: authenticate incoming
    request.  The result pairs what the gateway did with its answer. *)
Definition call (env : gmap string pyval) : list effect * result response :=
  let username := default PyNone (env !! "HTTP_X_AUTH_USER") in
  let password := default PyNone (env !! "HTTP_X_AUTH_KEY") in
  let tenant := username in
  let auth_url := default PyNone (env !! "HTTP_X_AUTH_URL") in
  if negb (truthy tenant) then ([], Return (_reject_request env auth_url))
  else
    let asked := [get_access_call username password tenant auth_url] in
    match get_access username password tenant auth_url with
    | Raise (KeystoneError k) =>
        if context_build_failed k
        then (asked, Return (_reject_request env auth_url))
        else (asked, Raise (KeystoneError k))
    | Raise ex => (asked, Raise ex)
    | Return auth_ref =>
        match _build_user_headers auth_ref with
        | Raise ex => (asked, Raise ex)
        | Return headers =>
            let env := headers ∪ env in
            ((asked ++ [app_call env])%list, Return (app env))
        end
    end.
End Gateway.

End AuthPassword.

(* ===================================================================== *)
(** ** engine/clients/nova.py: the shared helpers *)
(* ===================================================================== *)
Module NovaHelpers.
Import Py Nova.

(** What a helper raises: an exception of the provider client, unchanged,
    or one of the conditions of [chef_validator.common.exception] that the
    helpers name. *)
Inductive helper_exn : Type :=
| Propagated (e : exn)
| FlavorMissing (flavor_id : string)
| UserKeyPairMissing (key_name : string)
| NovaNetworkNotFound (network : string)
| PhysicalResourceNameAmbiguity (name : string).

Inductive outcome (A : Type) : Type :=
| Ok (a : A)
| Fail (e : helper_exn).
Arguments Ok {A} a.
Arguments Fail {A} e.

(** *** Addresses *)

(** The first entry of [ips] whose ['version'] is [ip_version], as
    [ip['addr']]; [None] when the loop ends without one.  ([ip_version]
    is 4 or 6.) *)
Fixpoint first_ip (ips : list pyval) (ip_version : Z) : result pyval :=
  match ips with
  | [] => Return PyNone
  | ip :: rest =>
      version ← getitem ip "version";
      if eq_int version ip_version then getitem ip "addr"
      else first_ip rest ip_version
  end.

(** Return the server's IP of the given type and version; [addresses] is
    [server.addresses]. *)
Definition get_ip (addresses : gmap string (list pyval)) (net_type : string)
    (ip_version : Z) : result pyval :=
  match addresses !! net_type with
  | Some ips => first_ip ips ip_version
  | None => Return PyNone
  end.

(** The loop of [server_to_ipaddress] over [server.networks], given as the
    pairs (network, addresses) in the order the dict is iterated. *)
Fixpoint first_address (networks : list (string * list string))
    : option string :=
  match networks with
  | [] => None
  | (n, ips) :: rest =>
      match ips with
      | ip :: _ => Some ip
      | [] => first_address rest
      end
  end.

(** *** Flavors *)

Record flavor : Type := {
  flavor_name : string;
  flavor_id : string
}.

(** The loop of [get_flavor_id]. *)
Fixpoint find_flavor (flavor_list : list flavor) (flavor : string)
    : option string :=
  match flavor_list with
  | [] => None
  | o :: rest =>
      if String.eqb (flavor_name o) flavor then Some (flavor_id o)
      else if String.eqb (flavor_id o) flavor then Some (flavor_id o)
      else find_flavor rest flavor
  end.

Record keypair : Type := {
  keypair_name : string;
  keypair_public_key : string
}.

Record network : Type := {
  network_id : string;
  network_label : string
}.

Section Helpers.
(** The provider's answers: [flavors.list()], [keypairs.get(name)],
    [servers.get(id).networks], [limits.get().absolute] as (name, value)
    pairs, [networks.find(label=label)] and [networks.get(id)]. *)
Variable flavors_list : result (list flavor).
Variable keypairs_get : string -> result keypair.
Variable servers_get_networks : string -> result (list (string * list string)).
Variable limits_absolute : result (list (string * pyval)).
Variable networks_find : string -> result network.
Variable networks_get : string -> result network.
(** [uuidutils.is_uuid_like] of oslo.utils. *)
Variable is_uuid_like : string -> bool.

(** Get the id for the specified flavor name; if the specified value is
    flavor id, just return it. *)
Definition get_flavor_id (flavor : string) : outcome string :=
  match flavors_list with
  | Raise ex => Fail (Propagated ex)
  | Return flavor_list =>
      match find_flavor flavor_list flavor with
      | None => Fail (FlavorMissing flavor)
      | Some flavor_id => Ok flavor_id
      end
  end.

(** Get the public key specified by [key_name]. *)
Definition get_keypair (key_name : string) : outcome keypair :=
  match keypairs_get key_name with
  | Return k => Ok k
  | Raise ex =>
      if is_not_found ex then Fail (UserKeyPairMissing key_name)
      else Fail (Propagated ex)
  end.

(** Return the server's IP address, fetching it from Nova; [None] after
    the warning for a server that is not found, and when the loop ends. *)
Definition server_to_ipaddress (server : string) : result (option string) :=
  match servers_get_networks server with
  | Return networks => Return (first_address networks)
  | Raise ex => if is_not_found ex then Return None else Raise ex
  end.

(** Return the absolute limits as a dictionary: [dict] of the pairs, a
    later pair replacing an earlier one of the same name. *)
Definition absolute_limits : result (gmap string pyval) :=
  limits ← limits_absolute;
  Return (foldl (fun d limit => <[limit.1 := limit.2]> d) ∅ limits).

Definition get_net_id_by_label (label : string) : outcome string :=
  match networks_find label with
  | Return net => Ok (network_id net)
  | Raise (NovaError exc) =>
      if issubclass (exc_class exc) NotFound
      then Fail (NovaNetworkNotFound label)
      else if issubclass (exc_class exc) NoUniqueMatch
      then Fail (PhysicalResourceNameAmbiguity label)
      else Fail (Propagated (NovaError exc))
  | Raise ex => Fail (Propagated ex)
  end.

Definition get_nova_network_id (net_identifier : string) : outcome string :=
  if is_uuid_like net_identifier then
    match networks_get net_identifier with
    | Return net => Ok (network_id net)
    | Raise ex =>
        if is_not_found ex then get_net_id_by_label net_identifier
        else Fail (Propagated ex)
    end
  else get_net_id_by_label net_identifier.
End Helpers.

End NovaHelpers.


(* ===================================================================== *)
(** ** Vocabulary of the properties, and concrete inputs *)
(* ===================================================================== *)
Module Terms.
Import Py Nova AuthPassword.

(** *** Fetching *)

(** The errors [fetch_server] takes for transient: an over-limit error, or
    a client error whose [http_status] attribute is 500 or 503, or which
    has no [http_status] attribute and whose [code] attribute is 500 or
    503. *)
Definition absorbed (ex : exn) : Prop :=
  exists exc, ex = NovaError exc /\
    (issubclass (exc_class exc) OverLimit = true \/
     (issubclass (exc_class exc) ClientException = true /\
      ((exc_http_status exc = Some (PyInt 500) \/
        exc_http_status exc = Some (PyInt 503)) \/
       (exc_http_status exc = None /\
        (exc_code exc = Some (PyInt 500) \/
         exc_code exc = Some (PyInt 503)))))).

(** The two status attributes of the error do not disagree, as for every
    error the provider client builds from a response: its [code] is the
    status of the response, and the [http_status] of its class, where the
    class has one, is that same status. *)
Definition attributes_agree (exc : nova_exception) : Prop :=
  forall hs c, exc_http_status exc = Some hs -> exc_code exc = Some c ->
    hs = c.

(** An over-limit error, or a client error whose [http_status] or [code]
    attribute is 500 or 503. *)
Definition over_limit_or_5xx (ex : exn) : Prop :=
  exists exc, ex = NovaError exc /\
    (issubclass (exc_class exc) OverLimit = true \/
     (issubclass (exc_class exc) ClientException = true /\
      ((exc_http_status exc = Some (PyInt 500) \/
        exc_http_status exc = Some (PyInt 503)) \/
       (exc_code exc = Some (PyInt 500) \/
        exc_code exc = Some (PyInt 503))))).

(** *** The status machine *)

(** The server object [_check_active] looks at: the one fetched for an
    id, the object itself when it is already ACTIVE, the object after one
    refresh otherwise. *)
Definition examined (servers_get : string -> result server) (ref : server_ref)
    : result (option server) :=
  match ref with
  | ServerId server_id => fetch_server servers_get server_id
  | ServerObj s =>
      if String.eqb (get_status s) "ACTIVE" then Return (Some s)
      else s' ← refresh_server servers_get s; Return (Some s')
  end.

(** What [_check_active] answers for a normalized status, the module-level
    name [resource] being bound to [None]. *)
Definition active_outcome (status : string) : result bool :=
  if bool_decide (status ∈ deferred_server_statuses) then Return false
  else if String.eqb status "ACTIVE" then Return true
  else if String.eqb status "ERROR"
  then Raise (AttributeError "NoneType" "ResourceInError")
  else Raise (AttributeError "NoneType" "ResourceUnknownStatus").

(** What [check_delete_server_complete] answers for a server that was
    fetched, the module-level name [resource] being bound to [None]. *)
Definition delete_outcome (s : server) : result bool :=
  if eq_str (getattr (srv_task_state s) PyNone) "deleting" then Return false
  else if bool_decide (get_status s ∈ ["DELETED"; "SOFT_DELETED"])
  then Return true
  else if String.eqb (get_status s) "ERROR"
  then Raise (AttributeError "NoneType" "ResourceInError")
  else Return false.

(** *** Metadata *)

(** What serialization does to one value. *)
Definition serialized_value (dumps : pyval -> string) (value : pyval) : pyval :=
  if is_string value then value else PyStr (dumps value).

(** The keys [meta_update] deletes. *)
Definition keys_to_delete (current_md metadata : gmap string pyval)
    : list string :=
  filter (fun key => metadata !! key = None) (iterkeys current_md).

(** *** Console urls *)

Definition unavailable : string := "Unavailable console type".

(** *** Boot payload *)

(** The names of the placeholders the scan of a template recognises
    ([$name] and [${name}]), in order. *)
Fixpoint placeholders (st : tstate) (s : string) : list string :=
  match s with
  | EmptyString => match st with TNamed name => [name] | _ => [] end
  | String c rest =>
      let text :=
        if Ascii.eqb c "$" then placeholders TDelim rest
        else placeholders TText rest in
      match st with
      | TText => text
      | TDelim =>
          if Ascii.eqb c "$" then placeholders TText rest
          else if is_idstart c then placeholders (TNamed (String c "")) rest
          else if Ascii.eqb c "{" then placeholders TBrace rest
          else text
      | TNamed name =>
          if is_idchar c
          then placeholders (TNamed (name +:+ String c "")) rest
          else name :: text
      | TBrace =>
          if is_idstart c then placeholders (TBraced (String c "")) rest
          else text
      | TBraced name =>
          if is_idchar c
          then placeholders (TBraced (name +:+ String c "")) rest
          else if Ascii.eqb c "}" then name :: placeholders TText rest
          else text
      end
  end.

(** The template has a placeholder of that name. *)
Definition has_placeholder (name template : string) : Prop :=
  name ∈ placeholders TText template.

(** The user-creation stanza of the configuration script. *)
Definition config_stanza (user : string) : string := "user: " +:+ user.

(** The user-creation stanza of the boot hook: it creates the user and
    lets it run anything as anyone without password. *)
Definition boothook_stanza (user : string) : string :=
  "useradd -m " +:+ user +:+ nl +:+
  "echo -e '" +:+ user +:+ "\tALL=(ALL)\tNOPASSWD: ALL' >> /etc/sudoers" +:+ nl.

(** The boto config of the CFNTOOLS payload. *)
Definition boto_cfg (CONF : conf) (repr : pyval -> string)
    (hostname : string -> option string) : string :=
  join nl
    ["[Boto]";
     "debug = 0";
     "is_secure = " +:+ py_str repr (instance_connection_is_secure CONF);
     "https_validate_certificates = " +:+
       py_str repr (instance_connection_https_validate_certificates CONF);
     "cfn_region_name = chef_validator";
     "cfn_region_endpoint = " +:+
       str_or_none repr (hostname (chef_validator_metadata_server_url CONF));
     "cloudwatch_region_name = chef_validator";
     "cloudwatch_region_endpoint = " +:+
       str_or_none repr (hostname (chef_validator_watch_server_url CONF))].

(** *** The gateway *)

(** A role object named [name]. *)
Definition role_named (role : pyval) (name : string) : Prop :=
  exists d, role = PyDict d /\ d !! "name" = Some (PyStr name).

(** The newer, flat token shape: [version] is "v3"; project, user, roles
    and auth token are entries of the token itself. *)
Definition v3_token (token_info : gmap string pyval)
    (project_id project_name user_id user_name : pyval)
    (role_names : list string) (auth_token : pyval) : Prop :=
  token_info !! "version" = Some (PyStr "v3") /\
  (exists project, token_info !! "project" = Some (PyDict project) /\
     project !! "id" = Some project_id /\
     project !! "name" = Some project_name) /\
  (exists user, token_info !! "user" = Some (PyDict user) /\
     user !! "id" = Some user_id /\ user !! "name" = Some user_name) /\
  (exists role_list, token_info !! "roles" = Some (PyList role_list) /\
     Forall2 role_named role_list role_names) /\
  token_info !! "auth_token" = Some auth_token.

(** The older, nested token shape: no [version] "v3"; the tenant and the
    token id sit under [token], the roles under [user], and the catalog
    under [serviceCatalog]. *)
Definition v2_token (token_info : gmap string pyval)
    (tenant_id tenant_name user_id user_name : pyval)
    (role_names : list string) (service_catalog auth_token : pyval) : Prop :=
  eq_str (default PyNone (token_info !! "version")) "v3" = false /\
  (exists token tenant, token_info !! "token" = Some (PyDict token) /\
     token !! "tenant" = Some (PyDict tenant) /\
     tenant !! "id" = Some tenant_id /\ tenant !! "name" = Some tenant_name /\
     token !! "id" = Some auth_token) /\
  (exists user role_list, token_info !! "user" = Some (PyDict user) /\
     user !! "id" = Some user_id /\ user !! "name" = Some user_name /\
     user !! "roles" = Some (PyList role_list) /\
     Forall2 role_named role_list role_names) /\
  token_info !! "serviceCatalog" = Some service_catalog.

(** The identity headers, as the dict literal of the source lists them. *)
Definition user_headers (keystone_token_info tenant_id tenant_name
    user_id user_name : pyval) (roles : string)
    (service_catalog auth_token : pyval) : gmap string pyval :=
  list_to_map
    [("keystone.token_info", keystone_token_info);
     ("HTTP_X_IDENTITY_STATUS", PyStr "Confirmed");
     ("HTTP_X_PROJECT_ID", tenant_id);
     ("HTTP_X_PROJECT_NAME", tenant_name);
     ("HTTP_X_USER_ID", user_id);
     ("HTTP_X_USER_NAME", user_name);
     ("HTTP_X_ROLES", PyStr roles);
     ("HTTP_X_SERVICE_CATALOG", service_catalog);
     ("HTTP_X_AUTH_TOKEN", auth_token)].

(** [env.get(k)] *)
Definition env_get (env : gmap string pyval) (k : string) : pyval :=
  default PyNone (env !! k).

(** The 401 answer of the gateway: its challenge names [auth_url]. *)
Definition unauthorized (repr : pyval -> string) (auth_url : pyval) : response :=
  {| resp_status := 401;
     resp_detail := "Authentication required";
     resp_headers :=
       [("WWW-Authenticate", "Keystone uri='" +:+ py_str repr auth_url +:+ "'")] |}.

(** *** Concrete inputs *)

Definition no_repr : pyval -> string := fun _ => "<object>".

(** A stand-in for [jsonutils.dumps]: right on integers and on lists of
    integers, which is all the examples encode. *)
Definition toy_dumps (v : pyval) : string :=
  match v with
  | PyInt z => pretty z
  | PyList l =>
      "[" +:+ join ", " ((fun x => match x with
                                   | PyInt z => pretty z
                                   | _ => "null"
                                   end) <$> l) +:+ "]"
  | _ => "null"
  end.

(** A server the provider reports in error, with a fault. *)
Definition error_server : server :=
  {| srv_id := "srv-1"; srv_name := "web";
     srv_status := "ERROR";
     srv_task_state := None;
     srv_fault := Some {[ "message" := PyStr "No valid host"; "code" := PyInt 500 ]};
     srv_metadata := {[ "a" := PyStr "1"; "b" := PyStr "2" ]} |}.

(** A bad-request error (class attribute [http_status = 400]) that was
    built with [code=503]. *)
Definition exc_400_code_503 : nova_exception :=
  {| exc_class := BadRequest; exc_http_status := Some (PyInt 400);
     exc_code := Some (PyInt 503); exc_message := "Bad request" |}.

(** A plain [ClientException] for an HTTP 503 answer: no [http_status]
    attribute, [code = 503]. *)
Definition exc_503 : nova_exception :=
  {| exc_class := ClientException; exc_http_status := None;
     exc_code := Some (PyInt 503); exc_message := "Service Unavailable" |}.

Definition exc_not_found : nova_exception :=
  {| exc_class := NotFound; exc_http_status := Some (PyInt 404);
     exc_code := Some (PyInt 404); exc_message := "Not found" |}.

(** The provider's answer to a console type the server does not offer. *)
Definition exc_unavailable_console : nova_exception :=
  {| exc_class := BadRequest; exc_http_status := Some (PyInt 400);
     exc_code := Some (PyInt 400);
     exc_message := "Unavailable console type spice-html5." |}.

Definition example_conf : conf :=
  {| chef_validator_watch_server_url := "http://watch.example.com:8003";
     chef_validator_metadata_server_url := "http://meta.example.com:8000";
     instance_connection_is_secure := PyStr "0";
     instance_connection_https_validate_certificates := PyStr "1" |}.

(** Package data with the placeholder in both templates. *)
Definition example_cloudinit (fn : string) : string :=
  if String.eqb fn "config" then
    "${add_custom_user}" +:+ nl +:+ "output: {all: '| tee -a /var/log/out.log'}"
  else if String.eqb fn "boothook.sh" then
    "#!/bin/bash" +:+ nl +:+ "${add_custom_user}" +:+ nl +:+ "exit 0"
  else "# " +:+ fn.

Definition example_as_string (subparts : list mime_text) : string :=
  join nl ((fun p => default "" (mt_filename p) +:+ ": " +:+
                     default "" (mt_payload p)) <$> subparts).

(** A v3 token, with a catalog of its own. *)
Definition v3_example : gmap string pyval :=
  {[ "version" := PyStr "v3";
     "project" := PyDict {[ "id" := PyStr "p1"; "name" := PyStr "demo" ]};
     "user" := PyDict {[ "id" := PyStr "u1"; "name" := PyStr "alice" ]};
     "roles" := PyList [PyDict {[ "name" := PyStr "admin" ]};
                        PyDict {[ "name" := PyStr "member" ]}];
     "catalog" := PyList [PyDict {[ "type" := PyStr "compute" ]}];
     "serviceCatalog" := PyList [PyDict {[ "type" := PyStr "compute" ]}];
     "auth_token" := PyStr "tok-3" ]}.

Definition example_env : gmap string pyval :=
  {[ "HTTP_X_AUTH_USER" := PyStr "alice";
     "HTTP_X_AUTH_KEY" := PyStr "secret";
     "HTTP_X_AUTH_URL" := PyStr "http://keystone:5000/v3" ]}.

Definition env_without_user : gmap string pyval :=
  {[ "HTTP_X_AUTH_KEY" := PyStr "secret";
     "HTTP_X_AUTH_URL" := PyStr "http://keystone:5000/v3" ]}.

Definition example_app (env : gmap string pyval) : response :=
  {| resp_status := 200; resp_detail := "OK"; resp_headers := [] |}.

End Terms.

(* ===================================================================== *)
(** ** Vocabulary of the further properties *)
(* ===================================================================== *)
Module MoreTerms.
Import Py Nova AuthPassword NovaHelpers Terms.

(** The flavor answers neither to the name nor to the id [flavor]. *)
Definition other_flavor (flavor : string) (o : NovaHelpers.flavor) : Prop :=
  flavor_name o <> flavor /\ flavor_id o <> flavor.

(** An address entry of version [v]. *)
Definition has_version (ip : pyval) (v : Z) : Prop :=
  exists d, ip = PyDict d /\ d !! "version" = Some (PyInt v).

(** An address entry of a version other than [v]. *)
Definition other_version (v : Z) (ip : pyval) : Prop :=
  exists v', has_version ip v' /\ v' <> v.

(** The [http_status] attribute is missing or false as a truth value. *)
Definition no_http_status (exc : nova_exception) : Prop :=
  exc_http_status exc = None \/
  exists v, exc_http_status exc = Some v /\ truthy v = false.

(** What the provider is left with after a metadata call, when
    [delete_meta] removes the listed keys and [set_meta] adds or replaces
    the entries given. *)
Definition apply_call (current : gmap string pyval) (c : api_call)
    : gmap string pyval :=
  match c with
  | delete_meta_call _ keys => foldr delete current keys
  | set_meta_call _ metadata => metadata ∪ current
  end.

(** The two user-creation stanzas [build_userdata] substitutes: those of
    the instance user, or empty texts when there is none. *)
Definition custom_user (instance_user : option string) : string * string :=
  match instance_user with
  | Some u => if truthy (PyStr u) then (config_stanza u, boothook_stanza u)
              else ("", "")
  | None => ("", "")
  end.

(** The three parts every payload starts with. *)
Definition base_parts (read_cloudinit_file : string -> string)
    (instance_user : option string) : list mime_text :=
  [ {| mt_payload :=
         Some (safe_substitute (read_cloudinit_file "config")
                 {[ "add_custom_user" := (custom_user instance_user).1 ]});
       mt_subtype := "cloud-config"; mt_filename := Some "cloud-config" |};
    {| mt_payload :=
         Some (safe_substitute (read_cloudinit_file "boothook.sh")
                 {[ "add_custom_user" := (custom_user instance_user).2 ]});
       mt_subtype := "cloud-boothook"; mt_filename := Some "boothook.sh" |};
    {| mt_payload := Some (read_cloudinit_file "part_handler.py");
       mt_subtype := "part-handler"; mt_filename := Some "part-handler.py" |} ].

(** A part of a parsed message as an attachment of the payload. *)
Definition part_of (payload filename : option string) (subtype : string)
    : attachment * mime_text :=
  ((payload, filename, Some subtype),
   {| mt_payload := payload; mt_subtype := subtype; mt_filename := filename |}).

(** The part that carries the metadata, when there is metadata. *)
Definition metadata_parts (dumps : pyval -> string) (metadata : pyval)
    : list mime_text :=
  if truthy metadata
  then [ {| mt_payload := Some (dumps metadata);
            mt_subtype := "x-cfninitdata";
            mt_filename := Some "cfn-init-data" |} ]
  else [].

(** The watch-server part. *)
Definition watch_part (CONF : conf) : mime_text :=
  {| mt_payload := Some (chef_validator_watch_server_url CONF);
     mt_subtype := "x-cfninitdata"; mt_filename := Some "cfn-watch-server" |}.

(** The keys of the headers the gateway builds. *)
Definition identity_keys : list string :=
  ["keystone.token_info"; "HTTP_X_IDENTITY_STATUS"; "HTTP_X_PROJECT_ID";
   "HTTP_X_PROJECT_NAME"; "HTTP_X_USER_ID"; "HTTP_X_USER_NAME";
   "HTTP_X_ROLES"; "HTTP_X_SERVICE_CATALOG"; "HTTP_X_AUTH_TOKEN"].

(** The one question the gateway may ask the auth service for [env]: the
    tenant is the user name. *)
Definition asked (env : gmap string pyval) : effect :=
  get_access_call (env_get env "HTTP_X_AUTH_USER")
    (env_get env "HTTP_X_AUTH_KEY") (env_get env "HTTP_X_AUTH_USER")
    (env_get env "HTTP_X_AUTH_URL").

(** *** Concrete inputs *)

Definition example_flavors : list NovaHelpers.flavor :=
  [ {| flavor_name := "m1.tiny"; flavor_id := "1" |};
    {| flavor_name := "2"; flavor_id := "7" |};
    {| flavor_name := "m1.small"; flavor_id := "2" |} ].

Definition example_addresses : gmap string (list pyval) :=
  {[ "private" :=
       [PyDict {[ "version" := PyInt 6; "addr" := PyStr "fe80::1" ]};
        PyDict {[ "version" := PyInt 4; "addr" := PyStr "10.0.0.3" ]};
        PyDict {[ "version" := PyInt 4; "addr" := PyStr "10.0.0.4" ]}] ]}.

(** A multipart user data of two parts. *)
Definition example_message : message :=
  {| msg_len := 2; msg_is_multipart := true;
     msg_parts := [(part_of (Some "#!/bin/sh") (Some "run.sh") "x-shellscript").1;
                   (part_of (Some "a: 1") None "cloud-config").1] |}.

End MoreTerms.


(* ===================================================================== *)
(** ** Facts about the string operations *)
(* ===================================================================== *)
Module PyFacts.
Import Py.

Lemma append_cons (x : ascii) (a b : string) :
  String x a +:+ b = String x (a +:+ b).
Proof. reflexivity. Qed.

Lemma append_nil_l (b : string) : "" +:+ b = b.
Proof. reflexivity. Qed.

Lemma append_assoc (a b c : string) : (a +:+ b) +:+ c = a +:+ (b +:+ c).
Proof.
  induction a as [|x a IH]; [reflexivity|].
  rewrite !append_cons. now f_equal.
Qed.

Lemma append_nil_r (a : string) : a +:+ "" = a.
Proof.
  induction a as [|x a IH]; [reflexivity|]. rewrite append_cons. now f_equal.
Qed.

(** [String.prefix] is "the hay starts with the needle". *)
Lemma prefix_split (n h : string) :
  String.prefix n h = true <-> exists b, h = n +:+ b.
Proof.
  revert h; induction n as [|x n IH]; intros h.
  - destruct h; simpl; (split; [intros _; eexists; reflexivity | reflexivity]).
  - destruct h as [|y h]; simpl.
    + split; [discriminate | intros [b Hb]; discriminate].
    + destruct (ascii_dec x y) as [->|Hne].
      * rewrite IH. split; intros [b Hb]; exists b.
        -- rewrite append_cons. congruence.
        -- rewrite append_cons in Hb. congruence.
      * split; [discriminate | intros [b Hb]].
        rewrite append_cons in Hb. congruence.
Qed.

(** [contains] decides "is a substring of". *)
Lemma contains_spec (n h : string) :
  contains n h = true <-> exists a b, h = a +:+ n +:+ b.
Proof.
  induction h as [|y h IH].
  - cbn [contains]. rewrite orb_false_r, prefix_split. split.
    + intros [b Hb]. now exists "", b.
    + intros [a [b Hab]]. destruct a; [now exists b | discriminate].
  - cbn [contains]. rewrite orb_true_iff, prefix_split, IH. split.
    + intros [[b Hb] | [a [b Hab]]].
      * now exists "", b.
      * exists (String y a), b. rewrite append_cons. now rewrite Hab.
    + intros [a [b Hab]]. destruct a as [|x a].
      * left. now exists b.
      * right. exists a, b. rewrite append_cons in Hab. congruence.
Qed.

Lemma contains_app_r (v p s : string) :
  contains v s = true -> contains v (p +:+ s) = true.
Proof.
  rewrite !contains_spec. intros [a [b ->]].
  exists (p +:+ a), b. now rewrite append_assoc.
Qed.

Lemma contains_app_l (v s : string) : contains v (v +:+ s) = true.
Proof. apply contains_spec. now exists "", s. Qed.

Lemma contains_cons (v : string) (c : ascii) (s : string) :
  contains v s = true -> contains v (String c s) = true.
Proof. apply (contains_app_r v (String c "") s). Qed.

(** Whatever follows the first separator does not show in [split_head]. *)
Lemma split_head_suffix (sep : ascii) (s t : string) :
  split_head sep (s +:+ String sep t) = split_head sep s.
Proof.
  induction s as [|c s IH].
  - simpl. now rewrite Ascii.eqb_refl.
  - rewrite append_cons. simpl.
    destruct (Ascii.eqb c sep); [reflexivity | now rewrite IH].
Qed.


Lemma split_head_id (sep : ascii) (s : string) :
  ~ In sep (list_ascii_of_string s) -> split_head sep s = s.
Proof.
  induction s as [|c s IH]; simpl; [reflexivity|]. intros H.
  destruct (Ascii.eqb_spec c sep) as [->|Hne]; [tauto|].
  rewrite IH; [reflexivity | tauto].
Qed.


End PyFacts.

(* ===================================================================== *)
(** ** Properties of the compute client plugin *)
(* ===================================================================== *)
Module NovaSpec.
Import Py Nova PyFacts Terms.

Lemma eq_int_true (v : pyval) (n : Z) : eq_int v n = true <-> v = PyInt n.
Proof.
  destruct v; simpl; try (split; [discriminate | intros H; discriminate H]).
  rewrite Z.eqb_eq. split; congruence.
Qed.

(** The status the fetcher tests is the [http_status] attribute, and the
    [code] attribute only when the error has no [http_status]. *)
Lemma transient_status_spec (exc : nova_exception) :
  transient_status exc = true <->
  (exc_http_status exc = Some (PyInt 500) \/
   exc_http_status exc = Some (PyInt 503)) \/
  (exc_http_status exc = None /\
   (exc_code exc = Some (PyInt 500) \/ exc_code exc = Some (PyInt 503))).
Proof.
  unfold transient_status, getattr.
  rewrite orb_true_iff, !eq_int_true.
  destruct (exc_http_status exc) as [hs|], (exc_code exc) as [c|].
  - split; [intros [-> | ->]; auto | intros [[[= ->] | [= ->]] | [[=] _]]; auto].
  - split; [intros [-> | ->]; auto | intros [[[= ->] | [= ->]] | [[=] _]]; auto].
  - split; [intros [-> | ->]; auto | intros [[[=] | [=]] | [_ [[= ->] | [= ->]]]]; auto].
  - split; [intros [[=] | [=]] | intros [[[=] | [=]] | [_ [[=] | [=]]]]].
Qed.

Section Servers.
Variable servers_get : string -> result server.
Variable repr : pyval -> string.

(** *** Fetching *)

Lemma fetch_server_raise (server_id : string) (ex : exn) :
  servers_get server_id = Raise ex ->
  (absorbed ex /\ fetch_server servers_get server_id = Return None) \/
  (~ absorbed ex /\ fetch_server servers_get server_id = Raise ex).
Proof.
  intros Hget. unfold fetch_server. rewrite Hget.
  destruct ex as [exc| | | | | | | |];
    try (right; split; [intros [? [? _]]; discriminate | reflexivity]).
  destruct (issubclass (exc_class exc) OverLimit) eqn:Hover.
  { left. split; [exists exc; auto | reflexivity]. }
  destruct (issubclass (exc_class exc) ClientException) eqn:Hclient.
  - destruct (transient_status exc) eqn:Ht.
    + left. split; [|reflexivity]. exists exc. split; [reflexivity|].
      right. split; [assumption|]. now apply transient_status_spec.
    + right. split; [|reflexivity]. intros [exc' [Heq [Ho|[_ Hs]]]].
      * inversion Heq; subst. congruence.
      * inversion Heq; subst. apply transient_status_spec in Hs. congruence.
  - right. split; [|reflexivity]. intros [exc' [Heq [Ho|[Hc _]]]];
      inversion Heq; subst; congruence.
Qed.

(** The fetcher by the attribute it reads: [fetch_server] returns absent
    exactly when the provider call raises an over-limit error, or a client
    error whose [http_status] attribute is 500 or 503, or which has no
    [http_status] attribute and whose [code] attribute is 500 or 503. *)
Lemma fetch_server_absent_iff_transient (server_id : string) :
  (fetch_server servers_get server_id = Return None <->
   exists ex, servers_get server_id = Raise ex /\ absorbed ex) /\
  (forall ex, servers_get server_id = Raise ex -> ~ absorbed ex ->
     fetch_server servers_get server_id = Raise ex) /\
  (forall exc, servers_get server_id = Raise (NovaError exc) ->
     issubclass (exc_class exc) NotFound = true ->
     transient_status exc = false ->
     fetch_server servers_get server_id = Raise (NovaError exc)) /\
  (forall s, servers_get server_id = Return s ->
     fetch_server servers_get server_id = Return (Some s)).
Proof.
  repeat split.
  - intros Hnone. destruct (servers_get server_id) as [s|ex] eqn:Hget.
    + unfold fetch_server in Hnone. rewrite Hget in Hnone. discriminate.
    + exists ex. split; [reflexivity|].
      destruct (fetch_server_raise server_id ex Hget) as [[Ha _]|[_ Hr]];
        [assumption | congruence].
  - intros [ex [Hget Ha]].
    destruct (fetch_server_raise server_id ex Hget) as [[_ Hn]|[Hna _]];
      [assumption | contradiction].
  - intros ex Hget Hna.
    destruct (fetch_server_raise server_id ex Hget) as [[Ha _]|[_ Hr]];
      [contradiction | assumption].
  - intros exc Hget Hnf Hst. unfold fetch_server. rewrite Hget, Hst.
    destruct (exc_class exc); try discriminate Hnf. reflexivity.
  - intros s Hget. unfold fetch_server. now rewrite Hget.
Qed.

(** On an error whose attributes agree, reading [http_status] before
    [code] and reading either come to the same. *)
Lemma over_limit_or_5xx_absorbed (exc : nova_exception) :
  attributes_agree exc ->
  (over_limit_or_5xx (NovaError exc) <-> absorbed (NovaError exc)).
Proof.
  intros Hagree. unfold over_limit_or_5xx, absorbed. split.
  - intros (exc' & [= <-] & [Hover | [Hclient Hst]]);
      exists exc; (split; [reflexivity|]); [now left|].
    right. split; [assumption|].
    destruct Hst as [Hhs | Hcode]; [now left|].
    destruct (exc_http_status exc) as [hs|] eqn:Hhs; [|now right].
    left. destruct Hcode as [Hc | Hc];
      rewrite (Hagree hs _ Hhs Hc); auto.
  - intros (exc' & [= <-] & [Hover | [Hclient Hst]]);
      exists exc; (split; [reflexivity|]); [now left|].
    right. split; [assumption|].
    destruct Hst as [Hhs | [_ Hcode]]; [now left | now right].
Qed.

(** C3. [fetch_server] returns absent (and does not raise) exactly when
    the provider call raises an over-limit error or a client error whose
    [http_status] or [code] attribute is 500 or 503; every other error
    the call raises, not-found included, propagates unchanged, and a
    server that was read is returned.  The errors are those the provider
    client builds: their two status attributes do not disagree. *)
Theorem fetch_server_absent_iff_over_limit_or_5xx (server_id : string) :
  (forall exc, servers_get server_id = Raise (NovaError exc) ->
     attributes_agree exc) ->
  (fetch_server servers_get server_id = Return None <->
   exists ex, servers_get server_id = Raise ex /\ over_limit_or_5xx ex) /\
  (forall ex, servers_get server_id = Raise ex -> ~ over_limit_or_5xx ex ->
     fetch_server servers_get server_id = Raise ex) /\
  (forall exc, servers_get server_id = Raise (NovaError exc) ->
     issubclass (exc_class exc) NotFound = true ->
     ~ over_limit_or_5xx (NovaError exc) ->
     fetch_server servers_get server_id = Raise (NovaError exc)) /\
  (forall s, servers_get server_id = Return s ->
     fetch_server servers_get server_id = Return (Some s)).
Proof.
  intros Hagree.
  assert (Hsame : forall ex, servers_get server_id = Raise ex ->
                    (over_limit_or_5xx ex <-> absorbed ex)).
  { intros ex Hget. destruct ex as [exc| | | | | | | |];
      [apply over_limit_or_5xx_absorbed, Hagree, Hget | ..];
      split; intros (? & Heq & _); discriminate Heq. }
  assert (Hraise : forall ex, servers_get server_id = Raise ex ->
                     ~ over_limit_or_5xx ex ->
                     fetch_server servers_get server_id = Raise ex).
  { intros ex Hget Hno.
    destruct (fetch_server_raise server_id ex Hget) as [[Ha _]|[_ Hr]];
      [|assumption].
    exfalso. apply Hno. now apply (Hsame ex Hget). }
  split; [|split; [|split]].
  - split.
    + intros Hnone. destruct (servers_get server_id) as [s|ex] eqn:Hget.
      * unfold fetch_server in Hnone. rewrite Hget in Hnone. discriminate.
      * exists ex. split; [reflexivity|]. apply (Hsame ex eq_refl).
        destruct (fetch_server_raise server_id ex Hget) as [[Ha _]|[_ Hr]];
          [assumption | congruence].
    + intros [ex [Hget Ho]]. apply (Hsame ex Hget) in Ho.
      destruct (fetch_server_raise server_id ex Hget) as [[_ Hn]|[Hna _]];
        [assumption | contradiction].
  - exact Hraise.
  - intros exc Hget _ Hno. now apply Hraise.
  - intros s Hget. unfold fetch_server. now rewrite Hget.
Qed.

(** X4. [get_server] reads the server and turns a not-found error into
    the entity-not-found condition; any other error propagates, and it
    never answers absent. *)
Lemma get_server_not_found (server_id : string) :
  (forall s, servers_get server_id = Return s ->
     get_server servers_get server_id = Return s) /\
  (forall ex, servers_get server_id = Raise ex -> is_not_found ex = true ->
     get_server servers_get server_id =
     Raise (EntityNotFound "Server" server_id)) /\
  (forall ex, servers_get server_id = Raise ex -> is_not_found ex = false ->
     get_server servers_get server_id = Raise ex).
Proof.
  unfold get_server. repeat split.
  - now intros s ->.
  - now intros ex -> ->.
  - now intros ex -> ->.
Qed.

(** *** The status machine *)

Lemma check_active_outcome (ref : server_ref) (res_name : string) :
  _check_active servers_get repr ref res_name =
  found ← examined servers_get ref;
  match found with
  | None => Return false
  | Some s => active_outcome (get_status s)
  end.
Proof.
  unfold _check_active, examined, active_outcome.
  destruct ref as [server_id|s]; cbn [mbind result_bind].
  - destruct (fetch_server servers_get server_id) as [[s|]|ex]; reflexivity.
  - destruct (String.eqb (get_status s) "ACTIVE") eqn:Hact; cbn.
    + now rewrite Hact.
    + destruct (refresh_server servers_get s) as [s'|ex]; reflexivity.
Qed.

Lemma check_delete_outcome (server_id : string) :
  check_delete_server_complete servers_get repr server_id =
  match fetch_server servers_get server_id with
  | Raise exc => if is_not_found exc then Return true else Raise exc
  | Return None => Return false
  | Return (Some s) => delete_outcome s
  end.
Proof.
  unfold check_delete_server_complete, delete_outcome, ignore_not_found.
  destruct (fetch_server servers_get server_id) as [[s|]|ex]; try reflexivity.
  now destruct (is_not_found ex).
Qed.

(** X1. For a server that is examined, a deferred status answers [false]
    and ACTIVE answers [true], neither raising; no server to examine (the
    fetch was absorbed) answers [false]. *)
Lemma check_active_settled (ref : server_ref) (res_name : string) :
  (examined servers_get ref = Return None ->
   _check_active servers_get repr ref res_name = Return false) /\
  (forall s, examined servers_get ref = Return (Some s) ->
     get_status s ∈ deferred_server_statuses ->
     _check_active servers_get repr ref res_name = Return false) /\
  (forall s, examined servers_get ref = Return (Some s) ->
     get_status s = "ACTIVE" ->
     _check_active servers_get repr ref res_name = Return true).
Proof.
  rewrite check_active_outcome. repeat split.
  - now intros ->.
  - intros s -> Hdef. cbn [mbind result_bind]. unfold active_outcome.
    now rewrite bool_decide_eq_true_2.
  - intros s -> Hact. cbn [mbind result_bind]. now rewrite Hact.
Qed.

(** For a server that is examined in status ERROR, or in a status that is
    neither deferred nor ACTIVE, the check raises the attribute error of
    [resource.ResourceInError], or of [resource.ResourceUnknownStatus]. *)
Lemma check_active_unsettled (ref : server_ref) (res_name : string) (s : server) :
  examined servers_get ref = Return (Some s) ->
  (get_status s = "ERROR" ->
   _check_active servers_get repr ref res_name =
   Raise (AttributeError "NoneType" "ResourceInError")) /\
  (get_status s ∉ deferred_server_statuses ->
   get_status s <> "ACTIVE" -> get_status s <> "ERROR" ->
   _check_active servers_get repr ref res_name =
   Raise (AttributeError "NoneType" "ResourceUnknownStatus")).
Proof.
  intros Hex. rewrite check_active_outcome, Hex. cbn [mbind result_bind].
  unfold active_outcome. split.
  - now intros ->.
  - intros Hdef Hact Herr. rewrite bool_decide_eq_false_2 by assumption.
    apply String.eqb_neq in Hact, Herr. now rewrite Hact, Herr.
Qed.

(** X2. The delete check, where it answers: [true] when the fetch raises a
    not-found error and when the status is DELETED or SOFT_DELETED (the
    task state not being "deleting"); [false] when the fetch is absorbed,
    when the task state is "deleting" whatever the status, and for a
    status other than DELETED, SOFT_DELETED and ERROR. *)
Lemma check_delete_settled (server_id : string) :
  (forall ex, fetch_server servers_get server_id = Raise ex ->
     is_not_found ex = true ->
     check_delete_server_complete servers_get repr server_id = Return true) /\
  (fetch_server servers_get server_id = Return None ->
   check_delete_server_complete servers_get repr server_id = Return false) /\
  (forall s, fetch_server servers_get server_id = Return (Some s) ->
     srv_task_state s = Some (PyStr "deleting") ->
     check_delete_server_complete servers_get repr server_id = Return false) /\
  (forall s, fetch_server servers_get server_id = Return (Some s) ->
     eq_str (getattr (srv_task_state s) PyNone) "deleting" = false ->
     (get_status s = "DELETED" \/ get_status s = "SOFT_DELETED" ->
      check_delete_server_complete servers_get repr server_id = Return true) /\
     (get_status s <> "DELETED" -> get_status s <> "SOFT_DELETED" ->
      get_status s <> "ERROR" ->
      check_delete_server_complete servers_get repr server_id = Return false)).
Proof.
  rewrite check_delete_outcome. split; [|split; [|split]].
  - now intros ex -> ->.
  - now intros ->.
  - intros s -> Hts. unfold delete_outcome. now rewrite Hts.
  - intros s -> Hts. unfold delete_outcome. rewrite Hts. split.
    + intros Hst. rewrite bool_decide_eq_true_2; [reflexivity|].
      rewrite !elem_of_cons. tauto.
    + intros Hd Hsd Herr.
      rewrite bool_decide_eq_false_2
        by (rewrite !elem_of_cons, elem_of_nil; tauto).
      apply String.eqb_neq in Herr. now rewrite Herr.
Qed.

(** The normalized status forgets a parenthetical suffix. *)
Lemma get_status_suffix (s : server) (st suffix : string) :
  get_status (with_status s (st +:+ "(" +:+ suffix)) =
  get_status (with_status s st).
Proof.
  unfold get_status. cbn [srv_status with_status]. apply split_head_suffix.
Qed.

Lemma get_status_cut (s : server) (st suffix : string) :
  ~ In "("%char (list_ascii_of_string st) ->
  get_status (with_status s st) = st /\
  get_status (with_status s (st +:+ "(" +:+ suffix)) = st.
Proof.
  intros Hno. rewrite get_status_suffix. unfold get_status.
  cbn [srv_status with_status]. split; now apply split_head_id.
Qed.

(** C6. The status is normalized by cutting it at the first [(]: a status
    [st] without [(] is its own normalized status, and [st] followed by a
    parenthetical suffix, as in [ACTIVE(foo)], has the normalized status
    [st].  Both checks classify by the normalized status: the active
    check (on a server fetched by id, and on a server object) and the
    delete check answer for the status with the suffix what they answer
    for its prefix; in particular ACTIVE with a suffix answers [true] to
    the active check, a deferred status with a suffix answers [false],
    and DELETED or SOFT_DELETED with a suffix answers [true] to the
    delete check. *)
Theorem status_suffix_ignored (s : server) (st suffix : string)
    (server_id res_name : string) :
  (~ In "("%char (list_ascii_of_string st) ->
   get_status (with_status s st) = st /\
   get_status (with_status s (st +:+ "(" +:+ suffix)) = st) /\
  _check_active (fun _ => Return (with_status s (st +:+ "(" +:+ suffix))) repr
    (ServerId server_id) res_name =
  _check_active (fun _ => Return (with_status s st)) repr
    (ServerId server_id) res_name /\
  _check_active servers_get repr
    (ServerObj (with_status s (st +:+ "(" +:+ suffix))) res_name =
  _check_active servers_get repr (ServerObj (with_status s st)) res_name /\
  check_delete_server_complete
    (fun _ => Return (with_status s (st +:+ "(" +:+ suffix))) repr server_id =
  check_delete_server_complete
    (fun _ => Return (with_status s st)) repr server_id /\
  (st = "ACTIVE" ->
   _check_active (fun _ => Return (with_status s (st +:+ "(" +:+ suffix)))
     repr (ServerId server_id) res_name = Return true /\
   _check_active servers_get repr
     (ServerObj (with_status s (st +:+ "(" +:+ suffix))) res_name
   = Return true) /\
  (st ∈ deferred_server_statuses ->
   _check_active (fun _ => Return (with_status s (st +:+ "(" +:+ suffix)))
     repr (ServerId server_id) res_name = Return false) /\
  (st ∈ ["DELETED"; "SOFT_DELETED"] ->
   eq_str (getattr (srv_task_state s) PyNone) "deleting" = false ->
   check_delete_server_complete
     (fun _ => Return (with_status s (st +:+ "(" +:+ suffix))) repr server_id
   = Return true).
Proof.
  pose proof (get_status_suffix s st suffix) as Hst.
  split; [apply get_status_cut|].
  split; [|split; [|split; [|split; [|split]]]].
  - unfold _check_active, fetch_server. cbn [mbind result_bind]. now rewrite Hst.
  - unfold _check_active. rewrite Hst.
    destruct (negb (String.eqb (get_status (with_status s st)) "ACTIVE"));
      cbn [mbind result_bind]; [|reflexivity].
    unfold refresh_server. cbn [srv_id with_status].
    destruct (servers_get (srv_id s)) as [s'|ex]; [reflexivity|].
    destruct ex as [exc| | | | | | | |]; try reflexivity.
    destruct (issubclass (exc_class exc) OverLimit);
      [cbn [mbind result_bind]; now rewrite Hst|].
    destruct (issubclass (exc_class exc) ClientException); [|reflexivity].
    destruct (transient_status exc); [|reflexivity].
    cbn [mbind result_bind]. now rewrite Hst.
  - unfold check_delete_server_complete, fetch_server.
    cbn [srv_task_state with_status]. now rewrite Hst.
  - intros ->. split.
    + unfold _check_active, fetch_server. cbn [mbind result_bind].
      now rewrite Hst.
    + unfold _check_active. now rewrite Hst.
  - intros Hdef. unfold _check_active, fetch_server. cbn [mbind result_bind].
    rewrite Hst. unfold deferred_server_statuses in Hdef.
    rewrite !elem_of_cons, elem_of_nil in Hdef.
    repeat (destruct Hdef as [-> | Hdef]; [reflexivity|]). contradiction.
  - intros Hdel Hts. unfold check_delete_server_complete, fetch_server.
    cbn [srv_task_state with_status]. rewrite Hts, Hst.
    rewrite !elem_of_cons, elem_of_nil in Hdel.
    repeat (destruct Hdel as [-> | Hdel]; [reflexivity|]). contradiction.
Qed.

End Servers.

(** The theorem at work: [ACTIVE(foo)] is cut to ACTIVE, and is active. *)
Lemma status_suffix_ignored_witness :
  get_status (with_status error_server "ACTIVE(foo)") = "ACTIVE" /\
  _check_active (fun _ => Return (with_status error_server "ACTIVE(foo)"))
    no_repr (ServerId "srv-1") "Server" = Return true.
Proof.
  pose proof (status_suffix_ignored (fun _ => Return error_server) no_repr
                error_server "ACTIVE" "foo)" "srv-1" "Server")
    as (Hcut & _ & _ & _ & Hactive & _).
  split.
  - apply Hcut. cbn. intuition discriminate.
  - now apply Hactive.
Defined.

(** C1 (failing input). A server in status ERROR, with a fault: the active
    check, given the server's id or the server object, raises the
    attribute error of [resource.ResourceInError] on the [None] bound to
    [resource], and no condition that carries the fault's message and
    code. *)
Theorem check_active_error_raises_attribute_error
    (repr : pyval -> string) (res_name : string) :
  get_status error_server = "ERROR" /\
  _check_active (fun _ => Return error_server) repr (ServerId "srv-1") res_name
  = Raise (AttributeError "NoneType" "ResourceInError") /\
  _check_active (fun _ => Return error_server) repr (ServerObj error_server)
    res_name
  = Raise (AttributeError "NoneType" "ResourceInError").
Proof. repeat split. Qed.

(** C2 (failing input). The provider returns a server in status ERROR, with
    a fault and no task state: the delete check raises the attribute error
    of [resource.ResourceInError], and no delete-failed condition. *)
Theorem check_delete_error_raises_attribute_error (repr : pyval -> string) :
  get_status error_server = "ERROR" /\
  check_delete_server_complete (fun _ => Return error_server) repr "srv-1"
  = Raise (AttributeError "NoneType" "ResourceInError").
Proof. repeat split. Qed.

(** Outside the errors of the provider client: an error made by hand
    with [http_status] 400 and [code] 503 is raised, since [code] is read
    only for an error without [http_status]. *)
Example fetch_server_code_503_behind_http_status :
  issubclass (exc_class exc_400_code_503) ClientException = true /\
  exc_code exc_400_code_503 = Some (PyInt 503) /\
  fetch_server (fun _ => Raise (NovaError exc_400_code_503)) "srv-1"
  = Raise (NovaError exc_400_code_503).
Proof. repeat split. Qed.

(** The theorem at work: an HTTP 503 answer yields absent. *)
Lemma fetch_server_503_absent_witness :
  fetch_server (fun _ => Raise (NovaError exc_503)) "srv-1" = Return None.
Proof.
  assert (Hagree : forall exc,
            @Raise server (NovaError exc_503) = Raise (NovaError exc) ->
            attributes_agree exc).
  { intros exc [= <-] hs c Hhs. discriminate Hhs. }
  apply (proj2 (proj1 (fetch_server_absent_iff_over_limit_or_5xx
                         (fun _ => Raise (NovaError exc_503)) "srv-1"
                         Hagree))).
  exists (NovaError exc_503). split; [reflexivity|].
  exists exc_503. split; [reflexivity|]. right. split; [reflexivity|].
  right. right. reflexivity.
Defined.

(** A server that is not found raises the provider's error. *)
Example fetch_server_not_found_raises :
  fetch_server (fun _ => Raise (NovaError exc_not_found)) "srv-1"
  = Raise (NovaError exc_not_found).
Proof. reflexivity. Qed.

(** *** Metadata *)
Section Metadata.
Variable dumps : pyval -> string.
Variable delete_meta : server -> list string -> result unit.
Variable set_meta : server -> gmap string pyval -> result unit.

Lemma serialized_value_is_string (value : pyval) :
  is_string (serialized_value dumps value) = true.
Proof. unfold serialized_value. now destruct value. Qed.

(** C7. Serialization of something that is not a mapping fails with the
    validation condition; serialization of a mapping succeeds, and its
    result has exactly the keys of the mapping, each with the value
    unchanged when it is a string and with the string of its JSON encoding
    otherwise, so that every value of the result is a string. *)
Theorem meta_serialize_spec (metadata : pyval) :
  match metadata with
  | PyDict m =>
      exists r, meta_serialize dumps metadata = Return r /\
        dom r = dom m /\
        (forall k, r !! k = serialized_value dumps <$> m !! k) /\
        (forall k v, m !! k = Some v -> is_string v = true -> r !! k = Some v) /\
        (forall k v, m !! k = Some v -> is_string v = false ->
           r !! k = Some (PyStr (dumps v))) /\
        (forall k v, r !! k = Some v -> is_string v = true)
  | _ =>
      meta_serialize dumps metadata =
      Raise (StackValidationFailed "nova server metadata needs to be a Map.")
  end.
Proof.
  destruct metadata as [| | | | |m]; try reflexivity.
  exists (serialized_value dumps <$> m). split; [reflexivity|].
  assert (Hlk : forall k, (serialized_value dumps <$> m) !! k
                          = serialized_value dumps <$> m !! k).
  { intros k. now rewrite lookup_fmap. }
  split; [apply dom_fmap_L|]. split; [exact Hlk|]. repeat split.
  - intros k v Hk Hs. rewrite Hlk, Hk. cbn. unfold serialized_value.
    now rewrite Hs.
  - intros k v Hk Hs. rewrite Hlk, Hk. cbn. unfold serialized_value.
    now rewrite Hs.
  - intros k v. rewrite Hlk. destruct (m !! k) as [w|]; cbn; [|discriminate].
    intros [= <-]. apply serialized_value_is_string.
Qed.

Lemma keys_to_delete_spec (current_md metadata : gmap string pyval) (k : string) :
  k ∈ keys_to_delete current_md metadata <->
  k ∈ dom current_md /\ k ∉ dom metadata.
Proof.
  unfold keys_to_delete, iterkeys.
  rewrite list_elem_of_filter, elem_of_dom, not_elem_of_dom.
  rewrite list_elem_of_fmap. split.
  - intros [Hnone [[k' v] [-> Hin]]]. apply elem_of_map_to_list in Hin.
    split; [now exists v | assumption].
  - intros [[v Hv] Hnone]. split; [assumption|].
    exists (k, v). split; [reflexivity | now apply elem_of_map_to_list].
Qed.

Lemma keys_to_delete_NoDup (current_md metadata : gmap string pyval) :
  NoDup (keys_to_delete current_md metadata).
Proof. apply NoDup_filter, NoDup_fst_map_to_list. Qed.

(** C4. For a server with metadata [current] and a desired mapping, the
    keys to delete are exactly the keys of [current] that the serialized
    desired mapping lacks; the delete call is issued first, and only when
    there is such a key; the set call that follows carries the whole
    serialized mapping, whatever the values of [current].  (When the
    delete call itself raises, the error propagates and nothing
    follows.) *)
Theorem meta_update_reconciles (server : server) (desired : gmap string pyval) :
  exists md to_del,
    meta_serialize dumps (PyDict desired) = Return md /\
    NoDup to_del /\
    (forall k, k ∈ to_del <-> k ∈ dom (srv_metadata server) /\ k ∉ dom md) /\
    meta_update dumps delete_meta set_meta server (PyDict desired) =
    match to_del with
    | [] => ([set_meta_call server md], set_meta server md)
    | _ :: _ =>
        match delete_meta server to_del with
        | Return _ =>
            ([delete_meta_call server to_del; set_meta_call server md],
             set_meta server md)
        | Raise e => ([delete_meta_call server to_del], Raise e)
        end
    end.
Proof.
  exists (serialized_value dumps <$> desired),
         (keys_to_delete (srv_metadata server)
            (serialized_value dumps <$> desired)).
  split; [reflexivity|]. split; [apply keys_to_delete_NoDup|].
  split; [apply keys_to_delete_spec|].
  unfold meta_update. cbn [meta_serialize].
  change (fun value => if is_string value then value else PyStr (dumps value))
    with (serialized_value dumps).
  fold (keys_to_delete (srv_metadata server)
          (serialized_value dumps <$> desired)).
  destruct (keys_to_delete _ _) as [|k ks]; cbn; [reflexivity|].
  destruct (delete_meta server (k :: ks)); reflexivity.
Qed.

End Metadata.

(** Serializing [{k: [1, 2], s: "x"}] encodes the list and keeps the
    string; a list is no mapping. *)
Example meta_serialize_example :
  meta_serialize toy_dumps
    (PyDict {[ "k" := PyList [PyInt 1; PyInt 2]; "s" := PyStr "x" ]})
  = Return {[ "k" := PyStr "[1, 2]"; "s" := PyStr "x" ]} /\
  meta_serialize toy_dumps (PyList [PyInt 1])
  = Raise (StackValidationFailed "nova server metadata needs to be a Map.").
Proof. split; reflexivity. Qed.

(** Reconciling [{a: 1, b: 2}] with [{b: 2, c: 3}] deletes [a], then sets
    the serialized [{b: 2, c: 3}]. *)
Example meta_update_example :
  meta_update toy_dumps (fun _ _ => Return tt) (fun _ _ => Return tt)
    error_server (PyDict {[ "b" := PyInt 2; "c" := PyInt 3 ]})
  = ([delete_meta_call error_server ["a"];
      set_meta_call error_server {[ "b" := PyStr "2"; "c" := PyStr "3" ]}],
     Return tt).
Proof. reflexivity. Qed.

(** *** Console urls *)

(** C9. A lookup of a supported console type for which the provider call
    raises a bad-request error returns the error's message when the
    message contains the unavailable-console marker, and raises the error
    again when it does not; the length of the mapping is five and its
    iteration visits, once each, the five supported types. *)
Theorem console_urls_bad_request_and_enumeration :
  (forall (call_console : console_method -> string -> result pyval)
          (key : string) (method : console_method) (e : nova_exception),
     console_methods !! key = Some method ->
     call_console method key = Raise (NovaError e) ->
     issubclass (exc_class e) BadRequest = true ->
     ((exists a b, exc_message e = a +:+ unavailable +:+ b) ->
      ConsoleUrls_getitem call_console key = Return (PyStr (exc_message e))) /\
     (~ (exists a b, exc_message e = a +:+ unavailable +:+ b) ->
      ConsoleUrls_getitem call_console key = Raise (NovaError e))) /\
  ConsoleUrls_len = 5%nat /\
  ConsoleUrls_iter ≡ₚ ["novnc"; "xvpvnc"; "spice-html5"; "rdp-html5"; "serial"].
Proof.
  split; [|split].
  - intros call_console key method e Hkey Hcall Hbad.
    unfold ConsoleUrls_getitem. rewrite Hkey, Hcall. cbn [mbind result_bind].
    rewrite Hbad. fold unavailable.
    destruct (contains unavailable (exc_message e)) eqn:Hc.
    + split; [reflexivity|]. intros Hn. exfalso. apply Hn.
      now apply contains_spec.
    + split; [|reflexivity]. intros Hex. apply contains_spec in Hex. congruence.
  - reflexivity.
  - vm_compute. apply NoDup_Permutation.
    + apply (bool_decide_unpack (NoDup _)). vm_compute. exact I.
    + apply (bool_decide_unpack (NoDup _)). vm_compute. exact I.
    + intros x. rewrite !elem_of_cons, !elem_of_nil. tauto.
Qed.

(** The theorem at work: the server has no spice console. *)
Lemma console_urls_unavailable_witness :
  ConsoleUrls_getitem (fun _ _ => Raise (NovaError exc_unavailable_console))
    "spice-html5"
  = Return (PyStr "Unavailable console type spice-html5.").
Proof.
  apply (proj1 console_urls_bad_request_and_enumeration
           (fun _ _ => Raise (NovaError exc_unavailable_console))
           "spice-html5" get_spice_console exc_unavailable_console);
    [reflexivity | reflexivity | reflexivity |].
  exists "", " spice-html5.". reflexivity.
Defined.

(** *** Boot payload *)

Lemma convert_found (mapping : gmap string string) (name v original : string) :
  mapping !! name = Some v -> convert mapping name original = v.
Proof. unfold convert. now intros ->. Qed.

(** A placeholder the mapping has a value for is replaced by the value. *)
Lemma scan_contains (mapping : gmap string string) (name v : string) :
  mapping !! name = Some v ->
  forall (s : string) (st : tstate),
    name ∈ placeholders st s -> contains v (scan mapping st s) = true.
Proof.
  intros Hv. induction s as [|c rest IH]; intros st Hin.
  - destruct st; cbn in Hin; try (now apply elem_of_nil in Hin).
    apply list_elem_of_singleton in Hin as ->. cbn.
    rewrite (convert_found _ _ _ _ Hv). rewrite <- (append_nil_r v) at 2.
    apply contains_app_l.
  - assert (Htext : name ∈ (if Ascii.eqb c "$" then placeholders TDelim rest
                            else placeholders TText rest) ->
                    contains v (if Ascii.eqb c "$" then scan mapping TDelim rest
                                else String c (scan mapping TText rest)) = true).
    { destruct (Ascii.eqb c "$"); intros H;
        [now apply IH | apply contains_cons; now apply IH]. }
    destruct st; cbn [placeholders scan] in Hin |- *.
    + now apply Htext.
    + destruct (Ascii.eqb c "$") eqn:Hd.
      { apply contains_cons. now apply IH. }
      destruct (is_idstart c); [now apply IH|].
      destruct (Ascii.eqb c "{"); [now apply IH|].
      apply contains_app_r. now apply Htext.
    + destruct (is_idchar c); [now apply IH|].
      apply elem_of_cons in Hin as [->|Hin].
      * rewrite (convert_found _ _ _ _ Hv). apply contains_app_l.
      * apply contains_app_r. now apply Htext.
    + destruct (is_idstart c); [now apply IH|].
      apply contains_app_r. now apply Htext.
    + destruct (is_idchar c); [now apply IH|].
      destruct (Ascii.eqb c "}").
      * apply elem_of_cons in Hin as [->|Hin].
        -- rewrite (convert_found _ _ _ _ Hv). apply contains_app_l.
        -- apply contains_app_r. now apply IH.
      * apply (contains_app_r v "${"). apply contains_app_r. now apply Htext.
Qed.


Section Userdata.
Variable CONF : conf.
Variable repr : pyval -> string.
Variable dumps : pyval -> string.
Variable read_cloudinit_file : string -> string.
Variable message_from_string : option string -> result message.
Variable hostname : string -> option string.
Variable as_string : list mime_text -> string.

(** The RAW format returns the user data as given, whatever the other
    arguments. *)
Lemma build_userdata_raw (metadata : pyval) (userdata instance_user : option string) :
  build_userdata CONF repr dumps read_cloudinit_file message_from_string
    hostname as_string metadata userdata instance_user "RAW"
  = Return userdata.
Proof. reflexivity. Qed.


End Userdata.


(** The parts of that message, by file name, and the two scripts. *)
Example build_userdata_cfntools_example :
  build_userdata example_conf no_repr toy_dumps example_cloudinit
    (fun _ => Raise TypeError) (fun _ => Some "example.com")
    (fun subparts => join "," (default "" ∘ mt_filename <$> subparts))
    PyNone (Some "#!/bin/sh") (Some "deploy") "chef_validator_CFNTOOLS"
  = Return (Some ("cloud-config,boothook.sh,part-handler.py,cfn-userdata," +:+
                  "loguserdata.py,cfn-watch-server,cfn-metadata-server," +:+
                  "cfn-boto-cfg")) /\
  safe_substitute (example_cloudinit "config")
    {[ "add_custom_user" := config_stanza "deploy" ]}
  = "user: deploy" +:+ nl +:+ "output: {all: '| tee -a /var/log/out.log'}".
Proof. split; reflexivity. Qed.

End NovaSpec.

(* ===================================================================== *)
(** ** Properties of the password gateway *)
(* ===================================================================== *)
Module AuthPasswordSpec.
Import Py AuthPassword PyFacts Terms.

Lemma getitem_Some (m : gmap string pyval) (k : string) (v : pyval) :
  m !! k = Some v -> getitem (PyDict m) k = Return v.
Proof. unfold getitem. now intros ->. Qed.

Lemma dict_get_dict (m : gmap string pyval) (k : string) :
  dict_get (PyDict m) k = Return (default PyNone (m !! k)).
Proof. reflexivity. Qed.

Lemma mapM_result_cons {A B} (f : A -> result B) (x : A) (l : list A) :
  mapM f (x :: l) = (y ← f x; k ← mapM f l; Return (y :: k)).
Proof. reflexivity. Qed.

Ltac lookup_step H :=
  rewrite (getitem_Some _ _ _ H); cbn [mbind result_bind].

(** The names of the roles, joined by commas. *)
Lemma role_names_joined (role_list : list pyval) (role_names : list string) :
  Forall2 role_named role_list role_names ->
  (names ← mapM (fun role => getitem role "name") role_list; join_names names)
  = Return (join "," role_names).
Proof.
  intros Hall.
  assert (Hnames : mapM (fun role => getitem role "name") role_list
                   = Return (PyStr <$> role_names)).
  { induction Hall as [|role name role_list role_names [d [-> Hd]] _ IH];
      [reflexivity|].
    rewrite mapM_result_cons, IH. now lookup_step Hd. }
  rewrite Hnames. cbn [mbind result_bind]. unfold join_names.
  assert (Hstr : mapM (fun v => match v with
                                | PyStr s => Return s
                                | _ => Raise TypeError
                                end) (PyStr <$> role_names)
                 = Return role_names).
  { clear. induction role_names as [|n ns IH]; [reflexivity|].
    rewrite fmap_cons, mapM_result_cons, IH. reflexivity. }
  now rewrite Hstr.
Qed.

Lemma build_user_headers_v3 (token_info : gmap string pyval)
    (project_id project_name user_id user_name : pyval)
    (role_names : list string) (auth_token : pyval) :
  v3_token token_info project_id project_name user_id user_name role_names
    auth_token ->
  _build_user_headers (PyDict token_info) =
  Return (user_headers (PyDict {[ "token" := PyDict token_info ]})
            project_id project_name user_id user_name
            (join "," role_names) PyNone auth_token).
Proof.
  intros [Hver [[project [Hp [Hpid Hpname]]] [[user [Hu [Huid Huname]]]
           [[role_list [Hroles Hall]] Htok]]]].
  unfold _build_user_headers. rewrite dict_get_dict, Hver.
  cbn [mbind result_bind].
  change (eq_str (default PyNone (Some (PyStr "v3"))) "v3") with true.
  cbn iota.
  lookup_step Hp. lookup_step Hpid. lookup_step Hpname.
  lookup_step Hu. lookup_step Huid. lookup_step Huname.
  lookup_step Hroles. cbn [iterate mbind result_bind].
  pose proof (role_names_joined _ _ Hall) as Hj.
  destruct (mapM (fun role => getitem role "name") role_list) as [names|e];
    cbn [mbind result_bind] in Hj |- *; [|discriminate].
  rewrite Hj. cbn [mbind result_bind]. lookup_step Htok. reflexivity.
Qed.

Lemma build_user_headers_v2 (token_info : gmap string pyval)
    (tenant_id tenant_name user_id user_name : pyval)
    (role_names : list string) (service_catalog auth_token : pyval) :
  v2_token token_info tenant_id tenant_name user_id user_name role_names
    service_catalog auth_token ->
  _build_user_headers (PyDict token_info) =
  Return (user_headers (PyDict token_info)
            tenant_id tenant_name user_id user_name
            (join "," role_names) service_catalog auth_token).
Proof.
  intros [Hver [[token [tenant [Ht [Hten [Htid [Htname Hid]]]]]]
           [[user [role_list [Hu [Huid [Huname [Hroles Hall]]]]]] Hcat]]].
  unfold _build_user_headers. rewrite dict_get_dict.
  cbn [mbind result_bind]. rewrite Hver.
  lookup_step Ht. lookup_step Hten. lookup_step Htid. lookup_step Htname.
  lookup_step Hu. lookup_step Huid. lookup_step Huname.
  lookup_step Hroles. cbn [iterate mbind result_bind].
  pose proof (role_names_joined _ _ Hall) as Hj.
  destruct (mapM (fun role => getitem role "name") role_list) as [names|e];
    cbn [mbind result_bind] in Hj |- *; [|discriminate].
  rewrite Hj. cbn [mbind result_bind]. lookup_step Hcat.
  lookup_step Hid. reflexivity.
Qed.

Section Gateway.
Variable repr : pyval -> string.
Variable get_access : pyval -> pyval -> pyval -> pyval -> result pyval.
Variable app : gmap string pyval -> response.

(** C8 (as amended). The gateway handles both token shapes.  For the v3
    shape and for the v2 shape it builds the headers status=Confirmed,
    project id and name, user id and name, comma-joined role names and
    auth token from the token; the service-catalog header carries the
    token's [serviceCatalog] for the v2 shape and [None] for the v3 shape.
    The headers built are put into the request environment, which is then
    handed to the application.  When the auth service answers with one of
    the errors Unauthorized, Forbidden, NotFound or AuthorizationFailure,
    the answer is HTTP 401 with a WWW-Authenticate challenge that names
    the auth-service URL of the request. *)
Theorem gateway_identity_headers_or_401 :
  (forall token_info project_id project_name user_id user_name role_names
          auth_token,
     v3_token token_info project_id project_name user_id user_name role_names
       auth_token ->
     _build_user_headers (PyDict token_info) =
     Return (user_headers (PyDict {[ "token" := PyDict token_info ]})
               project_id project_name user_id user_name
               (join "," role_names) PyNone auth_token)) /\
  (forall token_info tenant_id tenant_name user_id user_name role_names
          service_catalog auth_token,
     v2_token token_info tenant_id tenant_name user_id user_name role_names
       service_catalog auth_token ->
     _build_user_headers (PyDict token_info) =
     Return (user_headers (PyDict token_info)
               tenant_id tenant_name user_id user_name
               (join "," role_names) service_catalog auth_token)) /\
  (forall env auth_ref headers,
     truthy (env_get env "HTTP_X_AUTH_USER") = true ->
     get_access (env_get env "HTTP_X_AUTH_USER") (env_get env "HTTP_X_AUTH_KEY")
       (env_get env "HTTP_X_AUTH_USER") (env_get env "HTTP_X_AUTH_URL")
     = Return auth_ref ->
     _build_user_headers auth_ref = Return headers ->
     call repr get_access app env =
     ([get_access_call (env_get env "HTTP_X_AUTH_USER")
         (env_get env "HTTP_X_AUTH_KEY") (env_get env "HTTP_X_AUTH_USER")
         (env_get env "HTTP_X_AUTH_URL");
       app_call (headers ∪ env)],
      Return (app (headers ∪ env)))) /\
  (forall env k,
     truthy (env_get env "HTTP_X_AUTH_USER") = true ->
     get_access (env_get env "HTTP_X_AUTH_USER") (env_get env "HTTP_X_AUTH_KEY")
       (env_get env "HTTP_X_AUTH_USER") (env_get env "HTTP_X_AUTH_URL")
     = Raise (KeystoneError k) ->
     context_build_failed k = true ->
     call repr get_access app env =
     ([get_access_call (env_get env "HTTP_X_AUTH_USER")
         (env_get env "HTTP_X_AUTH_KEY") (env_get env "HTTP_X_AUTH_USER")
         (env_get env "HTTP_X_AUTH_URL")],
      Return (unauthorized repr (env_get env "HTTP_X_AUTH_URL")))).
Proof.
  split; [|split; [|split]].
  - intros. now apply build_user_headers_v3.
  - intros. now apply build_user_headers_v2.
  - intros env auth_ref headers Huser Hacc Hhdr. unfold call.
    fold (env_get env "HTTP_X_AUTH_USER") (env_get env "HTTP_X_AUTH_KEY")
         (env_get env "HTTP_X_AUTH_URL").
    rewrite Huser. cbn [negb]. rewrite Hacc, Hhdr. reflexivity.
  - intros env k Huser Hacc Hk. unfold call.
    fold (env_get env "HTTP_X_AUTH_USER") (env_get env "HTTP_X_AUTH_KEY")
         (env_get env "HTTP_X_AUTH_URL").
    rewrite Huser. cbn [negb]. rewrite Hacc, Hk. reflexivity.
Qed.

(** C10. A request whose X-Auth-User header is absent or empty is answered
    with HTTP 401 and a WWW-Authenticate challenge, and neither the auth
    service nor the application is called: the tenant the gateway tests
    is the user name. *)
Theorem no_user_rejected_without_auth_contact (env : gmap string pyval) :
  env !! "HTTP_X_AUTH_USER" = None \/
  env !! "HTTP_X_AUTH_USER" = Some (PyStr "") ->
  call repr get_access app env =
  ([], Return (unauthorized repr (env_get env "HTTP_X_AUTH_URL"))).
Proof.
  intros Huser. unfold call. destruct Huser as [-> | ->]; reflexivity.
Qed.

End Gateway.

(** C8 (counterexample). A token of the v3 shape that carries a catalog:
    the service-catalog header the gateway builds for it is [None]. *)
Lemma v3_service_catalog_not_forwarded :
  v3_example !! "catalog" = Some (PyList [PyDict {[ "type" := PyStr "compute" ]}]) /\
  exists headers,
    _build_user_headers (PyDict v3_example) = Return headers /\
    headers !! "HTTP_X_SERVICE_CATALOG" = Some PyNone.
Proof. split; [reflexivity|]. eexists. split; reflexivity. Qed.

(** The theorem at work: the headers of the v3 example token. *)
Lemma gateway_v3_headers_witness :
  _build_user_headers (PyDict v3_example) =
  Return (user_headers (PyDict {[ "token" := PyDict v3_example ]})
            (PyStr "p1") (PyStr "demo") (PyStr "u1") (PyStr "alice")
            "admin,member" PyNone (PyStr "tok-3")).
Proof.
  apply (proj1 (gateway_identity_headers_or_401 no_repr
                  (fun _ _ _ _ => Return (PyDict v3_example)) example_app)
           v3_example (PyStr "p1") (PyStr "demo") (PyStr "u1") (PyStr "alice")
           ["admin"; "member"] (PyStr "tok-3")).
  split; [reflexivity|]. split; [|split; [|split]].
  - eexists. repeat split; reflexivity.
  - eexists. repeat split; reflexivity.
  - eexists. split; [reflexivity|].
    repeat constructor; eexists; (split; [reflexivity|reflexivity]).
  - reflexivity.
Defined.

(** The theorem at work: no user header, and the auth service is not
    asked. *)
Lemma no_user_rejected_witness :
  call no_repr (fun _ _ _ _ => Return (PyDict v3_example)) example_app
    env_without_user
  = ([], Return {| resp_status := 401;
                   resp_detail := "Authentication required";
                   resp_headers :=
                     [("WWW-Authenticate",
                       "Keystone uri='http://keystone:5000/v3'")] |}).
Proof.
  apply (no_user_rejected_without_auth_contact no_repr
           (fun _ _ _ _ => Return (PyDict v3_example)) example_app
           env_without_user).
  left. reflexivity.
Defined.

(** A request with credentials the auth service accepts reaches the
    application with the identity headers; one it refuses gets 401. *)
Example gateway_example :
  (call no_repr (fun _ _ _ _ => Return (PyDict v3_example)) example_app
     example_env).2 = Return (example_app ∅) /\
  call no_repr (fun _ _ _ _ => Raise (KeystoneError Unauthorized)) example_app
    example_env
  = ([get_access_call (PyStr "alice") (PyStr "secret") (PyStr "alice")
        (PyStr "http://keystone:5000/v3")],
     Return (unauthorized no_repr (PyStr "http://keystone:5000/v3"))).
Proof. split; reflexivity. Qed.

End AuthPasswordSpec.

(* ===================================================================== *)
(** ** Properties of the shared helpers *)
(* ===================================================================== *)
Module HelpersSpec.
Import Py Nova NovaHelpers PyFacts Terms MoreTerms.

(** *** Flavors *)

Lemma find_flavor_none (flavor_list : list flavor) (flavor : string) :
  find_flavor flavor_list flavor = None <->
  Forall (other_flavor flavor) flavor_list.
Proof.
  induction flavor_list as [|o rest IH]; cbn.
  - split; [constructor | reflexivity].
  - destruct (String.eqb_spec (flavor_name o) flavor) as [Hn|Hn].
    { split; [discriminate|]. intros H. inversion H as [|? ? [Ho _] _]; subst.
      now destruct Ho. }
    destruct (String.eqb_spec (flavor_id o) flavor) as [Hi|Hi].
    { split; [discriminate|]. intros H. inversion H as [|? ? [_ Ho] _]; subst.
      now destruct Ho. }
    rewrite IH. split.
    + intros H. constructor; [split; assumption | assumption].
    + intros H. now inversion H.
Qed.

Lemma find_flavor_some (flavor_list : list flavor) (flavor i : string) :
  find_flavor flavor_list flavor = Some i <->
  exists pre o post,
    flavor_list = (pre ++ o :: post)%list /\ flavor_id o = i /\
    (flavor_name o = flavor \/ flavor_id o = flavor) /\
    Forall (other_flavor flavor) pre.
Proof.
  induction flavor_list as [|o rest IH]; cbn.
  - split; [discriminate|]. intros (pre & o & post & H & _).
    now destruct pre.
  - destruct (String.eqb_spec (flavor_name o) flavor) as [Hn|Hn];
      [|destruct (String.eqb_spec (flavor_id o) flavor) as [Hi|Hi]].
    1,2: split;
      [ intros [= <-]; exists [], o, rest; repeat split; auto
      | intros (pre & o' & post & Heq & <- & _ & Hpre);
        destruct pre as [|p pre]; cbn in Heq; injection Heq as -> ->;
        [reflexivity|];
        inversion Hpre as [|? ? [Hp1 Hp2] _]; subst; contradiction ].
    rewrite IH. split.
    + intros (pre & o' & post & -> & Hid & Hm & Hpre).
      exists (o :: pre), o', post. repeat split; auto.
      constructor; [split; assumption | assumption].
    + intros (pre & o' & post & Heq & Hid & Hm & Hpre).
      destruct pre as [|p pre]; cbn in Heq; injection Heq as -> ->.
      * destruct Hm; contradiction.
      * exists pre, o', post. repeat split; auto. now inversion Hpre.
Qed.

(** X5. [get_flavor_id] answers with the id of the first listed flavor
    whose name or id is the argument, so that an id that no flavor is
    named by is answered by itself; it raises FlavorMissing for the
    argument exactly when no listed flavor has it as name or id; an error
    of the listing propagates. *)
Theorem get_flavor_id_first_match (flavor_list : list flavor) (flavor : string) :
  (forall i, get_flavor_id (Return flavor_list) flavor = Ok i <->
     exists pre o post,
       flavor_list = (pre ++ o :: post)%list /\ flavor_id o = i /\
       (flavor_name o = flavor \/ flavor_id o = flavor) /\
       Forall (other_flavor flavor) pre) /\
  (get_flavor_id (Return flavor_list) flavor = Fail (FlavorMissing flavor) <->
   Forall (other_flavor flavor) flavor_list) /\
  (Forall (fun o => flavor_name o <> flavor) flavor_list ->
   (exists o, o ∈ flavor_list /\ flavor_id o = flavor) ->
   get_flavor_id (Return flavor_list) flavor = Ok flavor) /\
  (forall ex, get_flavor_id (Raise ex) flavor = Fail (Propagated ex)).
Proof.
  unfold get_flavor_id. split; [|split; [|split]].
  - intros i. rewrite <- find_flavor_some.
    destruct (find_flavor flavor_list flavor); split; congruence.
  - rewrite <- find_flavor_none.
    destruct (find_flavor flavor_list flavor); split; congruence.
  - intros Hnames [o [Hin Hid]].
    destruct (find_flavor flavor_list flavor) as [i|] eqn:Hfind.
    + apply find_flavor_some in Hfind
        as (pre & o' & post & -> & <- & [Hn|Hi] & _); [|now rewrite Hi].
      rewrite Forall_app, Forall_cons in Hnames.
      destruct Hnames as (_ & Hno & _). contradiction.
    + apply find_flavor_none in Hfind. rewrite Forall_forall in Hfind.
      destruct (Hfind o Hin) as [_ Hne]. contradiction.
  - reflexivity.
Qed.

(** The first match wins: an id that an earlier flavor is named by gets
    that flavor's id. *)
Example get_flavor_id_name_before_id :
  get_flavor_id (Return example_flavors) "2" = Ok "7" /\
  get_flavor_id (Return example_flavors) "1" = Ok "1" /\
  get_flavor_id (Return example_flavors) "m1.large"
  = Fail (FlavorMissing "m1.large").
Proof. repeat split. Qed.

(** *** Addresses *)

Lemma first_ip_skips (pre : list pyval) (rest : list pyval) (v : Z) :
  Forall (other_version v) pre ->
  first_ip (pre ++ rest) v = first_ip rest v.
Proof.
  induction 1 as [|ip pre (v' & (d & -> & Hd) & Hne) _ IH]; [reflexivity|].
  cbn. rewrite Hd. cbn. destruct (Z.eqb_spec v' v); [contradiction | exact IH].
Qed.

(** X6. [get_ip] answers [None] for a network the server has no addresses
    on, and when no address of the network has the version; otherwise it
    answers the address of the first entry of that version; an entry
    without version that is reached raises the key error. *)
Theorem get_ip_first_of_version
    (addresses : gmap string (list pyval)) (net_type : string) (v : Z) :
  (addresses !! net_type = None ->
   get_ip addresses net_type v = Return PyNone) /\
  (forall ips, addresses !! net_type = Some ips ->
     Forall (other_version v) ips ->
     get_ip addresses net_type v = Return PyNone) /\
  (forall pre ip post, addresses !! net_type = Some (pre ++ ip :: post)%list ->
     Forall (other_version v) pre -> has_version ip v ->
     get_ip addresses net_type v = getitem ip "addr") /\
  (forall pre d post,
     addresses !! net_type = Some (pre ++ PyDict d :: post)%list ->
     Forall (other_version v) pre -> d !! "version" = None ->
     get_ip addresses net_type v = Raise (KeyError "version")).
Proof.
  unfold get_ip. split; [|split; [|split]].
  - now intros ->.
  - intros ips -> Hall. rewrite <- (app_nil_r ips).
    now rewrite first_ip_skips.
  - intros pre ip post -> Hpre (d & -> & Hd). rewrite first_ip_skips by assumption.
    cbn. rewrite Hd. cbn. now rewrite Z.eqb_refl.
  - intros pre d post -> Hpre Hd. rewrite first_ip_skips by assumption.
    cbn. now rewrite Hd.
Qed.

(** The theorem at work: the first IPv4 address of the private network. *)
Lemma get_ip_first_of_version_witness :
  get_ip example_addresses "private" 4 = Return (PyStr "10.0.0.3") /\
  get_ip example_addresses "public" 4 = Return PyNone.
Proof.
  split.
  - transitivity
      (getitem (PyDict {[ "version" := PyInt 4; "addr" := PyStr "10.0.0.3" ]})
         "addr"); [|reflexivity].
    apply (proj1 (proj2 (proj2 (get_ip_first_of_version example_addresses
                                  "private" 4)))
             [PyDict {[ "version" := PyInt 6; "addr" := PyStr "fe80::1" ]}]
             (PyDict {[ "version" := PyInt 4; "addr" := PyStr "10.0.0.3" ]})
             [PyDict {[ "version" := PyInt 4; "addr" := PyStr "10.0.0.4" ]}]).
    + reflexivity.
    + constructor; [|constructor]. exists 6. split; [|discriminate].
      eexists. split; reflexivity.
    + eexists. split; reflexivity.
  - apply (proj1 (get_ip_first_of_version example_addresses "public" 4)).
    reflexivity.
Defined.

Lemma first_address_none (networks : list (string * list string)) :
  first_address networks = None <-> Forall (fun p => p.2 = []) networks.
Proof.
  induction networks as [|[n ips] rest IH]; cbn.
  - split; [constructor | reflexivity].
  - destruct ips as [|ip ips].
    + rewrite IH. split; [now constructor | intros H; now inversion H].
    + split; [discriminate | intros H; inversion H as [|? ? Hnil _]; discriminate].
Qed.

Lemma first_address_some (networks : list (string * list string)) (a : string) :
  first_address networks = Some a <->
  exists pre n ips post,
    networks = (pre ++ (n, a :: ips) :: post)%list /\
    Forall (fun p => p.2 = []) pre.
Proof.
  induction networks as [|[n ips] rest IH]; cbn.
  - split; [discriminate|]. intros (pre & ? & ? & ? & H & _). now destruct pre.
  - destruct ips as [|ip ips].
    + rewrite IH. split.
      * intros (pre & n' & ips' & post & -> & Hpre).
        exists ((n, []) :: pre), n', ips', post. split; [reflexivity|].
        now constructor.
      * intros (pre & n' & ips' & post & Heq & Hpre).
        destruct pre as [|p pre]; simplify_eq/=.
        exists pre, n', ips', post.
        split; [reflexivity | now inversion Hpre].
    + split.
      * intros [= ->]. exists [], n, ips, rest. split; [reflexivity|constructor].
      * intros (pre & n' & ips' & post & Heq & Hpre).
        destruct pre as [|p pre]; simplify_eq/=; [reflexivity|].
        inversion Hpre as [|? ? Hnil _]. discriminate.
Qed.

Section Helpers.
Variable keypairs_get : string -> result keypair.
Variable servers_get_networks : string -> result (list (string * list string)).
Variable limits_absolute : result (list (string * pyval)).
Variable networks_find : string -> result network.
Variable networks_get : string -> result network.
Variable is_uuid_like : string -> bool.

(** X7. [server_to_ipaddress] answers the first address of the first
    network that has one, in the order the networks are iterated, and
    [None] exactly when the server has no address at all or is not found;
    any other error of the read propagates. *)
Theorem server_to_ipaddress_first_address (server : string) :
  (forall networks a, servers_get_networks server = Return networks ->
     (server_to_ipaddress servers_get_networks server = Return (Some a) <->
      exists pre n ips post,
        networks = (pre ++ (n, a :: ips) :: post)%list /\
        Forall (fun p => p.2 = []) pre)) /\
  (forall networks, servers_get_networks server = Return networks ->
     (server_to_ipaddress servers_get_networks server = Return None <->
      Forall (fun p => p.2 = []) networks)) /\
  (forall ex, servers_get_networks server = Raise ex ->
     server_to_ipaddress servers_get_networks server =
     if is_not_found ex then Return None else Raise ex).
Proof.
  unfold server_to_ipaddress. split; [|split].
  - intros networks a ->. rewrite <- first_address_some.
    split; [now intros [= ->] | now intros ->].
  - intros networks ->. rewrite <- first_address_none.
    split; [now intros [= ->] | now intros ->].
  - now intros ex ->.
Qed.

Lemma foldl_insert_lookup (limits : list (string * pyval))
    (d : gmap string pyval) (k : string) :
  foldl (fun d limit => <[limit.1 := limit.2]> d) d limits !! k =
  match list_find (fun limit => limit.1 = k) (reverse limits) with
  | Some (_, limit) => Some limit.2
  | None => d !! k
  end.
Proof.
  revert d. induction limits as [|[n v] rest IH]; intros d; [reflexivity|].
  cbn [foldl]. rewrite IH, reverse_cons. cbn [fst snd].
  destruct (list_find (fun limit => limit.1 = k) (reverse rest))
    as [[i limit]|] eqn:Hfind.
  - erewrite list_find_app_l by exact Hfind. reflexivity.
  - rewrite list_find_app_r by exact Hfind. cbn.
    destruct (decide (n = k)) as [->|Hne]; cbn.
    + now rewrite lookup_insert_eq.
    + now rewrite lookup_insert_ne.
Qed.

(** X8. [absolute_limits] answers a dictionary in which a name listed
    several times has the value listed last, and a name that is not
    listed is absent; an error of the read propagates. *)
Theorem absolute_limits_last_wins (limits : list (string * pyval)) :
  exists d, absolute_limits (Return limits) = Return d /\
    (forall pre k v post, limits = (pre ++ (k, v) :: post)%list ->
       k ∉ post.*1 -> d !! k = Some v) /\
    (forall k, k ∉ limits.*1 -> d !! k = None) /\
    (forall ex, absolute_limits (Raise ex) = Raise ex).
Proof.
  eexists. split; [reflexivity|]. split; [|split].
  - intros pre k v post -> Hk. rewrite foldl_insert_lookup.
    rewrite reverse_app, reverse_cons.
    assert (Hnone : list_find (fun limit => limit.1 = k) (reverse post) = None).
    { apply list_find_None. rewrite Forall_forall. intros [k' v'] Hin Heq.
      apply Hk. apply list_elem_of_fmap. exists (k', v').
      split; [symmetry; exact Heq | rewrite elem_of_reverse in Hin; exact Hin]. }
    rewrite <- app_assoc. rewrite list_find_app_r by exact Hnone. cbn.
    rewrite decide_True by reflexivity. reflexivity.
  - intros k Hk. rewrite foldl_insert_lookup.
    assert (Hnone : list_find (fun limit => limit.1 = k) (reverse limits) = None).
    { apply list_find_None. rewrite Forall_forall. intros [k' v'] Hin Heq.
      apply Hk. apply list_elem_of_fmap. exists (k', v').
      split; [symmetry; exact Heq | rewrite elem_of_reverse in Hin; exact Hin]. }
    now rewrite Hnone.
  - reflexivity.
Qed.

(** A limit listed twice. *)
Example absolute_limits_example :
  absolute_limits
    (Return [("maxTotalCores", PyInt 20); ("maxTotalInstances", PyInt 10);
             ("maxTotalCores", PyInt 40)])
  = Return {[ "maxTotalCores" := PyInt 40; "maxTotalInstances" := PyInt 10 ]}.
Proof. reflexivity. Qed.

(** The answers of [get_net_id_by_label]. *)
Lemma get_net_id_by_label_outcomes (label : string) :
  match get_net_id_by_label networks_find label with
  | Ok i => exists net, networks_find label = Return net /\ network_id net = i
  | Fail (NovaNetworkNotFound n) =>
      n = label /\
      exists ex, networks_find label = Raise ex /\ is_not_found ex = true
  | Fail (PhysicalResourceNameAmbiguity n) =>
      n = label /\
      exists exc, networks_find label = Raise (NovaError exc) /\
                  issubclass (exc_class exc) NoUniqueMatch = true
  | Fail (Propagated ex) =>
      is_not_found ex = false /\ networks_find label = Raise ex
  | Fail _ => False
  end.
Proof.
  unfold get_net_id_by_label.
  destruct (networks_find label) as [net|ex]; [now exists net|].
  destruct ex as [exc| | | | | | | |]; try (split; reflexivity).
  destruct (issubclass (exc_class exc) NotFound) eqn:Hnf.
  { split; [reflexivity|]. exists (NovaError exc). now split. }
  destruct (issubclass (exc_class exc) NoUniqueMatch) eqn:Hnu.
  { split; [reflexivity|]. now exists exc. }
  split; [exact Hnf | reflexivity].
Qed.

Lemma get_nova_network_id_propagates (net_identifier : string) (ex : exn) :
  get_nova_network_id networks_find networks_get is_uuid_like net_identifier
  = Fail (Propagated ex) ->
  is_not_found ex = false /\
  ((is_uuid_like net_identifier = true /\
    networks_get net_identifier = Raise ex) \/
   networks_find net_identifier = Raise ex).
Proof.
  pose proof (get_net_id_by_label_outcomes net_identifier) as Hlabel.
  unfold get_nova_network_id.
  destruct (is_uuid_like net_identifier) eqn:Huuid.
  - destruct (networks_get net_identifier) as [net|ex'] eqn:Hget; [discriminate|].
    destruct (is_not_found ex') eqn:Hnf.
    + intros Hout. rewrite Hout in Hlabel. destruct Hlabel. split; auto.
    + intros [= <-]. split; [assumption|]. left. now split.
  - intros Hout. rewrite Hout in Hlabel. destruct Hlabel. split; auto.
Qed.

(** X9. Every answer of [get_nova_network_id] is accounted for: an id is
    that of the network the provider returned, by id for a uuid-like
    identifier or else by label; the network-not-found and the ambiguity
    condition name the identifier and stand for a not-found and a
    no-unique-match error of the lookup by label; an error of the
    provider that propagates is none of the not-found class.  An
    identifier that is not uuid-like is looked up by label only. *)
Theorem get_nova_network_id_outcomes (net_identifier : string) :
  match get_nova_network_id networks_find networks_get is_uuid_like
          net_identifier with
  | Ok i =>
      (is_uuid_like net_identifier = true /\
       exists net, networks_get net_identifier = Return net /\
                   network_id net = i) \/
      (exists net, networks_find net_identifier = Return net /\
                   network_id net = i)
  | Fail (NovaNetworkNotFound n) =>
      n = net_identifier /\
      exists ex, networks_find net_identifier = Raise ex /\
                 is_not_found ex = true
  | Fail (PhysicalResourceNameAmbiguity n) =>
      n = net_identifier /\
      exists exc, networks_find net_identifier = Raise (NovaError exc) /\
                  issubclass (exc_class exc) NoUniqueMatch = true
  | Fail (Propagated ex) =>
      is_not_found ex = false /\
      ((is_uuid_like net_identifier = true /\
        networks_get net_identifier = Raise ex) \/
       networks_find net_identifier = Raise ex)
  | Fail _ => False
  end /\
  (is_uuid_like net_identifier = false ->
   get_nova_network_id networks_find networks_get is_uuid_like net_identifier
   = get_net_id_by_label networks_find net_identifier).
Proof.
  pose proof (get_net_id_by_label_outcomes net_identifier) as Hlabel.
  split.
  - destruct (get_nova_network_id networks_find networks_get is_uuid_like
                net_identifier) as [i|[ex| | | |]] eqn:Hout.
    + unfold get_nova_network_id in Hout.
      destruct (is_uuid_like net_identifier) eqn:Huuid.
      * destruct (networks_get net_identifier) as [net|ex] eqn:Hget.
        -- injection Hout as <-. left. split; [reflexivity|]. now exists net.
        -- destruct (is_not_found ex); [|discriminate].
           rewrite Hout in Hlabel. now right.
      * rewrite Hout in Hlabel. now right.
    + now apply get_nova_network_id_propagates.
    + unfold get_nova_network_id in Hout.
      destruct (is_uuid_like net_identifier);
        [destruct (networks_get net_identifier) as [net|ex];
         [discriminate | destruct (is_not_found ex); [|discriminate]]|];
        rewrite Hout in Hlabel; exact Hlabel.
    + unfold get_nova_network_id in Hout.
      destruct (is_uuid_like net_identifier);
        [destruct (networks_get net_identifier) as [net|ex];
         [discriminate | destruct (is_not_found ex); [|discriminate]]|];
        rewrite Hout in Hlabel; exact Hlabel.
    + unfold get_nova_network_id in Hout.
      destruct (is_uuid_like net_identifier);
        [destruct (networks_get net_identifier) as [net|ex];
         [discriminate | destruct (is_not_found ex); [|discriminate]]|];
        rewrite Hout in Hlabel; exact Hlabel.
    + unfold get_nova_network_id in Hout.
      destruct (is_uuid_like net_identifier);
        [destruct (networks_get net_identifier) as [net|ex];
         [discriminate | destruct (is_not_found ex); [|discriminate]]|];
        rewrite Hout in Hlabel; exact Hlabel.
  - intros Huuid. unfold get_nova_network_id. now rewrite Huuid.
Qed.

(** X10. No helper that translates not-found lets the provider's
    not-found error through: what [get_keypair] and
    [get_nova_network_id] propagate, and what [server_to_ipaddress] and
    [get_server] raise, is no not-found error of the provider; the key
    pair and the server that are not found give the conditions that name
    them. *)
Theorem helpers_translate_not_found :
  (forall key_name ex,
     get_keypair keypairs_get key_name = Fail (Propagated ex) ->
     is_not_found ex = false) /\
  (forall key_name ex, keypairs_get key_name = Raise ex ->
     is_not_found ex = true ->
     get_keypair keypairs_get key_name = Fail (UserKeyPairMissing key_name)) /\
  (forall server ex,
     server_to_ipaddress servers_get_networks server = Raise ex ->
     is_not_found ex = false) /\
  (forall net_identifier ex,
     get_nova_network_id networks_find networks_get is_uuid_like
       net_identifier = Fail (Propagated ex) ->
     is_not_found ex = false) /\
  (forall (servers_get : string -> result server) server_id ex,
     get_server servers_get server_id = Raise ex -> is_not_found ex = false).
Proof.
  split; [|split; [|split; [|split]]].
  - intros key_name ex. unfold get_keypair.
    destruct (keypairs_get key_name) as [k|ex']; [discriminate|].
    destruct (is_not_found ex') eqn:Hnf; [discriminate|]. now intros [= <-].
  - intros key_name ex Hget Hnf. unfold get_keypair. now rewrite Hget, Hnf.
  - intros server ex. unfold server_to_ipaddress.
    destruct (servers_get_networks server) as [n|ex']; [discriminate|].
    destruct (is_not_found ex') eqn:Hnf; [discriminate|]. now intros [= <-].
  - intros net_identifier ex Hout.
    now apply get_nova_network_id_propagates in Hout.
  - intros servers_get server_id ex. unfold get_server.
    destruct (servers_get server_id) as [s|ex']; [discriminate|].
    destruct (is_not_found ex') eqn:Hnf; [now intros [= <-]|].
    now intros [= <-].
Qed.

End Helpers.

End HelpersSpec.

(* ===================================================================== *)
(** ** Further properties of the compute client plugin *)
(* ===================================================================== *)
Module NovaMoreSpec.
Import Py Nova PyFacts Terms MoreTerms NovaSpec.

(** *** Error classes *)

(** X11. [is_unprocessable_entity] holds exactly for a client error whose
    [http_status] attribute is 422, or whose [http_status] attribute is
    missing or false as a truth value and whose [code] attribute is 422:
    unlike the fetcher, it falls back on [code] also for an [http_status]
    that is present but false.  An error that is no client error is never
    unprocessable. *)
Theorem is_unprocessable_entity_iff (ex : exn) :
  (is_unprocessable_entity ex = true <->
   exists exc, ex = NovaError exc /\
     issubclass (exc_class exc) ClientException = true /\
     (exc_http_status exc = Some (PyInt 422) \/
      (no_http_status exc /\ exc_code exc = Some (PyInt 422)))) /\
  (forall exc, ex = NovaError exc -> exc_class exc = NoUniqueMatch ->
     is_unprocessable_entity ex = false).
Proof.
  split.
  - destruct ex as [exc| | | | | | | |]; cbn;
      try (split; [discriminate | intros (? & [=] & _)]).
    rewrite andb_true_iff, eq_int_true. unfold getattr, no_http_status. split.
    + intros [Hc Hst]. exists exc. split; [reflexivity|]. split; [assumption|].
      destruct (exc_http_status exc) as [hs|].
      * destruct (truthy hs) eqn:Ht; [left; congruence|].
        right. split; [right; now exists hs|].
        destruct (exc_code exc); cbn in Hst; congruence.
      * right. split; [now left|].
        destruct (exc_code exc); cbn in Hst; congruence.
    + intros (exc' & [= <-] & Hc & Hst). split; [assumption|].
      destruct Hst as [-> | [[-> | (v & -> & Hv)] ->]]; cbn; try reflexivity.
      now rewrite Hv.
  - intros exc -> Hcls. cbn. now rewrite Hcls.
Qed.

(** An error with [http_status = None] and [code = 422] is unprocessable,
    and is not absorbed by the fetcher when its code is 503. *)
Example http_status_none_falls_back :
  is_unprocessable_entity
    (NovaError {| exc_class := ClientException;
                  exc_http_status := Some PyNone;
                  exc_code := Some (PyInt 422); exc_message := "" |}) = true /\
  transient_status {| exc_class := ClientException;
                      exc_http_status := Some PyNone;
                      exc_code := Some (PyInt 503); exc_message := "" |} = false.
Proof. split; reflexivity. Qed.

(** *** Reads of the provider *)

Section Servers.
Variable servers_get : string -> result server.
Variable repr : pyval -> string.

Lemma refresh_server_fetch (s : server) :
  refresh_server servers_get s =
  match fetch_server servers_get (srv_id s) with
  | Return (Some s') => Return s'
  | Return None => Return s
  | Raise ex => Raise ex
  end.
Proof.
  unfold refresh_server, fetch_server.
  destruct (servers_get (srv_id s)) as [s'|ex]; [reflexivity|].
  destruct ex as [exc| | | | | | | |]; try reflexivity.
  destruct (issubclass (exc_class exc) OverLimit); [reflexivity|].
  destruct (issubclass (exc_class exc) ClientException); [|reflexivity].
  now destruct (transient_status exc).
Qed.

(** X12. [refresh_server] follows the policy of [fetch_server] on the
    object's own id: it answers the server just read, keeps the object as
    it was exactly when the read fails with an absorbed error, and raises
    every other error of the read unchanged. *)
Theorem refresh_server_policy (s : server) :
  (forall s', servers_get (srv_id s) = Return s' ->
     refresh_server servers_get s = Return s') /\
  (forall ex, servers_get (srv_id s) = Raise ex -> absorbed ex ->
     refresh_server servers_get s = Return s) /\
  (forall ex, servers_get (srv_id s) = Raise ex -> ~ absorbed ex ->
     refresh_server servers_get s = Raise ex) /\
  refresh_server servers_get s =
  match fetch_server servers_get (srv_id s) with
  | Return (Some s') => Return s'
  | Return None => Return s
  | Raise ex => Raise ex
  end.
Proof.
  repeat split; try apply refresh_server_fetch.
  - intros s' Hget. unfold refresh_server. now rewrite Hget.
  - intros ex Hget Ha. rewrite refresh_server_fetch.
    destruct (fetch_server_raise servers_get (srv_id s) ex Hget)
      as [[_ ->]|[Hna _]]; [reflexivity | contradiction].
  - intros ex Hget Hna. rewrite refresh_server_fetch.
    destruct (fetch_server_raise servers_get (srv_id s) ex Hget)
      as [[Ha _]|[_ ->]]; [contradiction | reflexivity].
Qed.

(** X13. The active check and the provider.  A server object that is
    already ACTIVE answers [true] whatever the provider would answer (it
    is not read again).  An error of the read that is not absorbed
    propagates from the check, for an id and for an object that is not
    ACTIVE.  An object in a deferred status whose refresh fails with an
    absorbed error answers [false]. *)
Theorem check_active_and_provider (res_name : string) :
  (forall s, get_status s = "ACTIVE" ->
     _check_active servers_get repr (ServerObj s) res_name = Return true) /\
  (forall server_id ex, servers_get server_id = Raise ex -> ~ absorbed ex ->
     _check_active servers_get repr (ServerId server_id) res_name = Raise ex) /\
  (forall s ex, get_status s <> "ACTIVE" ->
     servers_get (srv_id s) = Raise ex -> ~ absorbed ex ->
     _check_active servers_get repr (ServerObj s) res_name = Raise ex) /\
  (forall s ex, get_status s ∈ deferred_server_statuses ->
     servers_get (srv_id s) = Raise ex -> absorbed ex ->
     _check_active servers_get repr (ServerObj s) res_name = Return false).
Proof.
  split; [|split; [|split]].
  - intros s Hact. rewrite check_active_outcome. cbn [examined].
    rewrite Hact. cbn. now rewrite Hact.
  - intros server_id ex Hget Hna. rewrite check_active_outcome. cbn [examined].
    destruct (fetch_server_raise servers_get server_id ex Hget)
      as [[Ha _]|[_ ->]]; [contradiction | reflexivity].
  - intros s ex Hact Hget Hna. rewrite check_active_outcome. cbn [examined].
    apply String.eqb_neq in Hact. rewrite Hact, refresh_server_fetch.
    destruct (fetch_server_raise servers_get (srv_id s) ex Hget)
      as [[Ha _]|[_ ->]]; [contradiction | reflexivity].
  - intros s ex Hdef Hget Ha. rewrite check_active_outcome. cbn [examined].
    destruct (String.eqb (get_status s) "ACTIVE") eqn:Hact.
    + apply String.eqb_eq in Hact. rewrite Hact in Hdef.
      exfalso. revert Hdef. unfold deferred_server_statuses.
      rewrite !elem_of_cons, elem_of_nil. intuition discriminate.
    + rewrite refresh_server_fetch.
      destruct (fetch_server_raise servers_get (srv_id s) ex Hget)
        as [[_ ->]|[Hna _]]; [|contradiction].
      cbn [mbind result_bind]. unfold active_outcome.
      now rewrite bool_decide_eq_true_2.
Qed.

End Servers.


(** *** Metadata *)
Section Metadata.
Variable dumps : pyval -> string.
Variable delete_meta : server -> list string -> result unit.
Variable set_meta : server -> gmap string pyval -> result unit.

Lemma serialized_value_twice (value : pyval) :
  serialized_value dumps (serialized_value dumps value)
  = serialized_value dumps value.
Proof. unfold serialized_value. now destruct value. Qed.

(** X15. Serialization is idempotent: serializing the result of a
    serialization gives that result again (an encoded value is a string
    and is not encoded a second time). *)
Theorem meta_serialize_idempotent (metadata : pyval) :
  (r ← meta_serialize dumps metadata; meta_serialize dumps (PyDict r))
  = meta_serialize dumps metadata.
Proof.
  destruct metadata as [| | | | |m]; try reflexivity.
  cbn [meta_serialize mbind result_bind]. f_equal.
  change (fun value => if is_string value then value else PyStr (dumps value))
    with (serialized_value dumps).
  rewrite <- map_fmap_compose. apply map_fmap_ext.
  intros k v _. apply serialized_value_twice.
Qed.

Lemma foldr_delete_lookup (keys : list string) (m : gmap string pyval)
    (k : string) :
  foldr delete m keys !! k = if decide (k ∈ keys) then None else m !! k.
Proof.
  induction keys as [|x keys IH]; cbn [foldr].
  - rewrite decide_False by apply not_elem_of_nil. reflexivity.
  - destruct (decide (x = k)) as [->|Hne].
    + rewrite lookup_delete_eq. rewrite decide_True by apply list_elem_of_here.
      reflexivity.
    + rewrite lookup_delete_ne by assumption. rewrite IH.
      destruct (decide (k ∈ keys)) as [Hin|Hnin].
      * rewrite decide_True by (now apply list_elem_of_further). reflexivity.
      * rewrite decide_False; [reflexivity|].
        rewrite elem_of_cons. intros [->|?]; contradiction.
Qed.

Lemma meta_update_unfold (server : server) (desired : gmap string pyval) :
  meta_update dumps delete_meta set_meta server (PyDict desired) =
  let md := serialized_value dumps <$> desired in
  let to_del := keys_to_delete (srv_metadata server) md in
  match to_del with
  | [] => ([set_meta_call server md], set_meta server md)
  | _ :: _ =>
      match delete_meta server to_del with
      | Return _ =>
          ([delete_meta_call server to_del; set_meta_call server md],
           set_meta server md)
      | Raise e => ([delete_meta_call server to_del], Raise e)
      end
  end.
Proof.
  unfold meta_update. cbn [meta_serialize].
  change (fun value => if is_string value then value else PyStr (dumps value))
    with (serialized_value dumps).
  fold (keys_to_delete (srv_metadata server)
          (serialized_value dumps <$> desired)).
  cbn zeta.
  destruct (keys_to_delete _ _) as [|k ks]; cbn; [reflexivity|].
  destruct (delete_meta server (k :: ks)); reflexivity.
Qed.

(** X16. What [meta_update] does not do: for something that is not a
    mapping it raises the validation condition and issues no call at
    all; when every key of the server's metadata is a key of the desired
    mapping it issues the set call only; and a delete call that raises
    is not followed by a set call. *)
Theorem meta_update_calls_withheld (server : server) :
  (forall metadata, (forall m, metadata <> PyDict m) ->
     meta_update dumps delete_meta set_meta server metadata =
     ([], Raise (StackValidationFailed
                   "nova server metadata needs to be a Map."))) /\
  (forall desired, dom (srv_metadata server) ⊆ dom desired ->
     exists md,
       meta_serialize dumps (PyDict desired) = Return md /\
       meta_update dumps delete_meta set_meta server (PyDict desired) =
       ([set_meta_call server md], set_meta server md)) /\
  (forall desired keys e,
     (meta_update dumps delete_meta set_meta server (PyDict desired)).1 !! 0%nat
       = Some (delete_meta_call server keys) ->
     delete_meta server keys = Raise e ->
     meta_update dumps delete_meta set_meta server (PyDict desired) =
     ([delete_meta_call server keys], Raise e)).
Proof.
  split; [|split].
  - intros metadata Hno. destruct metadata as [| | | | |m]; try reflexivity.
    now destruct (Hno m).
  - intros desired Hsub. eexists. split; [reflexivity|].
    rewrite meta_update_unfold. cbn zeta.
    destruct (keys_to_delete _ _) as [|k ks] eqn:Hkeys; [reflexivity|].
    assert (Hin : k ∈ keys_to_delete (srv_metadata server)
                      (serialized_value dumps <$> desired)).
    { rewrite Hkeys. apply list_elem_of_here. }
    apply keys_to_delete_spec in Hin as [Hcur Hnot].
    rewrite dom_fmap_L in Hnot. exfalso. apply Hnot, Hsub, Hcur.
  - intros desired keys e. rewrite meta_update_unfold. cbn zeta.
    destruct (keys_to_delete _ _) as [|k ks]; cbn; [discriminate|].
    destruct (delete_meta server (k :: ks)) as [u|e'] eqn:Hdel; cbn.
    + intros [= <-]. congruence.
    + intros [= <-]. congruence.
Qed.

(** X17. The calls [meta_update] issues reconcile the metadata: when the
    provider accepts them, and a delete call removes the listed keys and
    a set call adds or replaces the entries given, the calls turn the
    server's metadata into exactly the serialized desired mapping. *)
Theorem meta_update_reaches_desired (server : server)
    (desired : gmap string pyval) :
  (forall keys, delete_meta server keys = Return tt) ->
  exists md,
    meta_serialize dumps (PyDict desired) = Return md /\
    foldl apply_call (srv_metadata server)
      (meta_update dumps delete_meta set_meta server (PyDict desired)).1 = md.
Proof.
  intros Hdel. eexists. split; [reflexivity|].
  rewrite meta_update_unfold. cbn zeta.
  set (md := serialized_value dumps <$> desired).
  assert (Hgoal : md ∪ foldr delete (srv_metadata server)
                         (keys_to_delete (srv_metadata server) md) = md).
  { apply map_eq. intros k. rewrite lookup_union, foldr_delete_lookup.
    destruct (md !! k) as [v|] eqn:Hmd.
    - now destruct (decide _); [|destruct (srv_metadata server !! k)].
    - destruct (decide (k ∈ keys_to_delete (srv_metadata server) md))
        as [Hin|Hnin]; [reflexivity|].
      destruct (srv_metadata server !! k) as [w|] eqn:Hcur; [|reflexivity].
      exfalso. apply Hnin, keys_to_delete_spec. split.
      + apply elem_of_dom. now exists w.
      + now apply not_elem_of_dom. }
  destruct (keys_to_delete (srv_metadata server) md) as [|k ks] eqn:Hkeys.
  - cbn. cbn in Hgoal. exact Hgoal.
  - rewrite Hdel. cbn [fst foldl apply_call]. exact Hgoal.
Qed.

End Metadata.

(** The theorem at work: [{a: 1, b: 2}] reconciled with [{b: 2, c: 3}]. *)
Lemma meta_update_reaches_desired_witness :
  foldl apply_call {[ "a" := PyStr "1"; "b" := PyStr "2" ]}
    (meta_update toy_dumps (fun _ _ => Return tt) (fun _ _ => Return tt)
       error_server (PyDict {[ "b" := PyInt 2; "c" := PyInt 3 ]})).1
  = {[ "b" := PyStr "2"; "c" := PyStr "3" ]}.
Proof.
  destruct (meta_update_reaches_desired toy_dumps (fun _ _ => Return tt)
              (fun _ _ => Return tt) error_server
              {[ "b" := PyInt 2; "c" := PyInt 3 ]} (fun _ => eq_refl))
    as (md & Hmd & Hfold).
  injection Hmd as <-. exact Hfold.
Defined.

(** *** Boot payload *)

Lemma scan_text_verbatim (mapping : gmap string string) (s : string) :
  ~ In "$"%char (list_ascii_of_string s) -> scan mapping TText s = s.
Proof.
  induction s as [|c s IH]; [reflexivity|]. cbn. intros Hno.
  destruct (Ascii.eqb_spec c "$") as [->|Hne]; [tauto|].
  rewrite IH; [reflexivity | tauto].
Qed.

(** X18. The substitution of templates: a template without [$] is
    delivered as it is, whatever the mapping; a placeholder of the
    template whose name the mapping has is replaced, so that the value
    occurs in the result. *)
Theorem safe_substitute_verbatim_or_replaced
    (template : string) (mapping : gmap string string) :
  (~ In "$"%char (list_ascii_of_string template) ->
   safe_substitute template mapping = template) /\
  (forall name v, has_placeholder name template -> mapping !! name = Some v ->
     exists a b, safe_substitute template mapping = a +:+ v +:+ b).
Proof.
  split.
  - apply scan_text_verbatim.
  - intros name v Hp Hv. apply contains_spec.
    now apply (scan_contains mapping name v Hv).
Qed.

(** The theorem at work: a template with an escaped delimiter, a
    placeholder that is given and one that is not. *)
Lemma safe_substitute_witness :
  safe_substitute "echo hello" {[ "add_custom_user" := "user: deploy" ]}
  = "echo hello" /\
  exists a b,
    safe_substitute "cost: $$5 ${add_custom_user} $HOME"
      {[ "add_custom_user" := "user: deploy" ]}
    = a +:+ "user: deploy" +:+ b.
Proof.
  split.
  - apply (proj1 (safe_substitute_verbatim_or_replaced "echo hello"
                    {[ "add_custom_user" := "user: deploy" ]})).
    cbn. intuition discriminate.
  - apply (proj2 (safe_substitute_verbatim_or_replaced
                    "cost: $$5 ${add_custom_user} $HOME"
                    {[ "add_custom_user" := "user: deploy" ]})
             "add_custom_user" "user: deploy"); [|reflexivity].
    unfold has_placeholder. vm_compute. constructor.
Defined.

(** What the scan does with the three kinds of [$]. *)
Example safe_substitute_example :
  safe_substitute "cost: $$5 ${add_custom_user} $HOME"
    {[ "add_custom_user" := "user: deploy" ]}
  = "cost: $5 user: deploy $HOME".
Proof. reflexivity. Qed.

Lemma mapM_Forall2 {A B} (f : A -> result B) (l : list A) (k : list B) :
  Forall2 (fun a b => f a = Return b) l k -> mapM f l = Return k.
Proof.
  induction 1 as [|a b l k Hab _ IH]; [reflexivity|].
  change (mapM f (a :: l)) with (y ← f a; r ← mapM f l; Return (y :: r)).
  now rewrite Hab, IH.
Qed.

Lemma make_subpart_part_of (payload filename : option string) (subtype : string) :
  make_subpart (part_of payload filename subtype).1
  = Return (part_of payload filename subtype).2.
Proof. reflexivity. Qed.

Section Userdata.
Variable CONF : conf.
Variable repr : pyval -> string.
Variable dumps : pyval -> string.
Variable read_cloudinit_file : string -> string.
Variable message_from_string : option string -> result message.
Variable hostname : string -> option string.
Variable as_string : list mime_text -> string.

(** The three attachments every payload starts with. *)
Lemma base_parts_made (instance_user : option string) :
  Forall2 (fun a b => make_subpart a = Return b)
    [(Some (safe_substitute (read_cloudinit_file "config")
              {[ "add_custom_user" := (custom_user instance_user).1 ]}),
      Some "cloud-config", None);
     (Some (safe_substitute (read_cloudinit_file "boothook.sh")
              {[ "add_custom_user" := (custom_user instance_user).2 ]}),
      Some "boothook.sh", Some "cloud-boothook");
     (Some (read_cloudinit_file "part_handler.py"), Some "part-handler.py",
      None)]
    (base_parts read_cloudinit_file instance_user).
Proof. repeat constructor. Qed.

Lemma metadata_parts_made (metadata : pyval) :
  Forall2 (fun a b => make_subpart a = Return b)
    (if truthy metadata
     then [(Some (dumps metadata), Some "cfn-init-data", Some "x-cfninitdata")]
     else [])
    (metadata_parts dumps metadata).
Proof. unfold metadata_parts. destruct (truthy metadata); repeat constructor. Qed.

Lemma build_userdata_unfold (metadata : pyval) (userdata instance_user : option string)
    (user_data_format : string) :
  String.eqb user_data_format "RAW" = false ->
  build_userdata CONF repr dumps read_cloudinit_file message_from_string
    hostname as_string metadata userdata instance_user user_data_format =
  let is_cfntools := String.eqb user_data_format "chef_validator_CFNTOOLS" in
  let is_software_config := String.eqb user_data_format "SOFTWARE_CONFIG" in
  subparts ← mapM make_subpart
    ([(Some (safe_substitute (read_cloudinit_file "config")
               {[ "add_custom_user" := (custom_user instance_user).1 ]}),
       Some "cloud-config", None);
      (Some (safe_substitute (read_cloudinit_file "boothook.sh")
               {[ "add_custom_user" := (custom_user instance_user).2 ]}),
       Some "boothook.sh", Some "cloud-boothook");
      (Some (read_cloudinit_file "part_handler.py"), Some "part-handler.py",
       None)] ++
     (if is_cfntools
      then [(userdata, Some "cfn-userdata", Some "x-cfninitdata")]
      else if is_software_config then
        match message_from_string userdata with
        | Return m =>
            if (0 <? msg_len m)%nat && msg_is_multipart m then msg_parts m
            else [(userdata, Some "userdata", Some "x-shellscript")]
        | Raise _ => [(userdata, Some "userdata", Some "x-shellscript")]
        end
      else []) ++
     (if is_cfntools
      then [(Some (read_cloudinit_file "loguserdata.py"),
             Some "loguserdata.py", Some "x-shellscript")]
      else []) ++
     (if truthy metadata
      then [(Some (dumps metadata), Some "cfn-init-data", Some "x-cfninitdata")]
      else []) ++
     [(Some (chef_validator_watch_server_url CONF),
       Some "cfn-watch-server", Some "x-cfninitdata")] ++
     (if is_cfntools
      then [(Some (chef_validator_metadata_server_url CONF),
             Some "cfn-metadata-server", Some "x-cfninitdata");
            (Some (boto_cfg CONF repr hostname), Some "cfn-boto-cfg",
             Some "x-cfninitdata")]
      else []))%list;
  Return (Some (as_string subparts)).
Proof.
  intros Hraw. unfold build_userdata. rewrite Hraw. cbn zeta.
  assert (Hcu : match instance_user with
                | Some u =>
                    if truthy (PyStr u) then
                      ("user: " +:+ u,
                       "useradd -m " +:+ u +:+ nl +:+
                       "echo -e '" +:+ u +:+
                       "\tALL=(ALL)\tNOPASSWD: ALL' >> /etc/sudoers" +:+ nl)
                    else ("", "")
                | None => ("", "")
                end = ((custom_user instance_user).1,
                       (custom_user instance_user).2)).
  { unfold custom_user. destruct instance_user as [u|]; [|reflexivity].
    now destruct (truthy (PyStr u)). }
  rewrite Hcu.
  destruct (String.eqb user_data_format "chef_validator_CFNTOOLS");
    destruct (String.eqb user_data_format "SOFTWARE_CONFIG");
    destruct (truthy metadata);
    try reflexivity;
    destruct (message_from_string userdata) as [m|e]; try reflexivity;
    destruct ((0 <? msg_len m)%nat && msg_is_multipart m);
    cbn; rewrite <- ?app_assoc; reflexivity.
Qed.

(** X3. With the CFNTOOLS format the message is, for every metadata,
    user data and instance user, the serialization of: the three fixed
    parts, the user data (cfn-userdata), the log forwarder
    (loguserdata.py), the encoded metadata (cfn-init-data) when the
    metadata is true as a truth value, the watch-server URL, the
    metadata-server URL and the boto config, in this order. *)
Theorem build_userdata_cfntools_any
    (metadata : pyval) (userdata instance_user : option string) :
  build_userdata CONF repr dumps read_cloudinit_file message_from_string
    hostname as_string metadata userdata instance_user
    "chef_validator_CFNTOOLS"
  = Return (Some (as_string
      (base_parts read_cloudinit_file instance_user ++
       [ {| mt_payload := userdata; mt_subtype := "x-cfninitdata";
            mt_filename := Some "cfn-userdata" |};
         {| mt_payload := Some (read_cloudinit_file "loguserdata.py");
            mt_subtype := "x-shellscript";
            mt_filename := Some "loguserdata.py" |} ] ++
       metadata_parts dumps metadata ++
       [ watch_part CONF;
         {| mt_payload := Some (chef_validator_metadata_server_url CONF);
            mt_subtype := "x-cfninitdata";
            mt_filename := Some "cfn-metadata-server" |};
         {| mt_payload := Some (boto_cfg CONF repr hostname);
            mt_subtype := "x-cfninitdata";
            mt_filename := Some "cfn-boto-cfg" |} ])%list)).
Proof.
  rewrite build_userdata_unfold by reflexivity. cbn zeta.
  change (String.eqb "chef_validator_CFNTOOLS" "chef_validator_CFNTOOLS")
    with true. cbn iota.
  erewrite mapM_Forall2; [reflexivity|].
  apply Forall2_app; [apply base_parts_made|].
  apply Forall2_cons_2; [reflexivity|].
  apply Forall2_cons_2; [reflexivity|].
  apply Forall2_app; [apply metadata_parts_made|].
  repeat (apply Forall2_cons_2; [reflexivity|]). apply Forall2_nil_2.
Qed.

(** X20. With the SOFTWARE_CONFIG format, user data that parses as a
    multipart message with headers is expanded: each part of it becomes
    a part of the payload, with its payload, file name and subtype, after
    the three fixed parts; user data that does not parse, has no header
    or is not multipart becomes the single part [userdata] of subtype
    x-shellscript.  Then come the metadata, if any, and the watch-server
    URL; there is no log forwarder, metadata-server URL or boto
    config. *)
Theorem build_userdata_software_config
    (metadata : pyval) (userdata instance_user : option string) :
  (forall m (parts : list (option string * option string * string)),
     message_from_string userdata = Return m ->
     (0 < msg_len m)%nat -> msg_is_multipart m = true ->
     msg_parts m = (fun p => (part_of p.1.1 p.1.2 p.2).1) <$> parts ->
     build_userdata CONF repr dumps read_cloudinit_file message_from_string
       hostname as_string metadata userdata instance_user "SOFTWARE_CONFIG"
     = Return (Some (as_string
         (base_parts read_cloudinit_file instance_user ++
          ((fun p => (part_of p.1.1 p.1.2 p.2).2) <$> parts) ++
          metadata_parts dumps metadata ++ [watch_part CONF])%list))) /\
  (match message_from_string userdata with
   | Return m => msg_len m = 0%nat \/ msg_is_multipart m = false
   | Raise _ => True
   end ->
   build_userdata CONF repr dumps read_cloudinit_file message_from_string
     hostname as_string metadata userdata instance_user "SOFTWARE_CONFIG"
   = Return (Some (as_string
       (base_parts read_cloudinit_file instance_user ++
        [ {| mt_payload := userdata; mt_subtype := "x-shellscript";
             mt_filename := Some "userdata" |} ] ++
        metadata_parts dumps metadata ++ [watch_part CONF])%list))).
Proof.
  split.
  - intros m parts Hparse Hlen Hmulti Hparts.
    rewrite build_userdata_unfold by reflexivity. cbn zeta.
    change (String.eqb "SOFTWARE_CONFIG" "chef_validator_CFNTOOLS") with false.
    change (String.eqb "SOFTWARE_CONFIG" "SOFTWARE_CONFIG") with true.
    cbn iota. rewrite Hparse, Hmulti.
    apply Nat.ltb_lt in Hlen. rewrite Hlen. cbn [andb]. rewrite Hparts.
    erewrite mapM_Forall2; [reflexivity|].
    apply Forall2_app; [apply base_parts_made|].
    apply Forall2_app.
    { apply Forall2_fmap, Forall_Forall2_diag, Forall_forall.
      intros p _. apply make_subpart_part_of. }
    cbn [app]. apply Forall2_app; [apply metadata_parts_made|].
    apply Forall2_cons_2; [reflexivity | apply Forall2_nil_2].
  - intros Hopaque.
    rewrite build_userdata_unfold by reflexivity. cbn zeta.
    change (String.eqb "SOFTWARE_CONFIG" "chef_validator_CFNTOOLS") with false.
    change (String.eqb "SOFTWARE_CONFIG" "SOFTWARE_CONFIG") with true.
    cbn iota.
    destruct (message_from_string userdata) as [m|e].
    + assert (Hb : (0 <? msg_len m)%nat && msg_is_multipart m = false).
      { destruct Hopaque as [-> | ->]; [reflexivity | apply andb_false_r]. }
      rewrite Hb.
      erewrite mapM_Forall2; [reflexivity|].
      apply Forall2_app; [apply base_parts_made|].
      apply Forall2_cons_2; [reflexivity|]. cbn [app].
      apply Forall2_app; [apply metadata_parts_made|].
      apply Forall2_cons_2; [reflexivity | apply Forall2_nil_2].
    + erewrite mapM_Forall2; [reflexivity|].
      apply Forall2_app; [apply base_parts_made|].
      apply Forall2_cons_2; [reflexivity|]. cbn [app].
      apply Forall2_app; [apply metadata_parts_made|].
      apply Forall2_cons_2; [reflexivity | apply Forall2_nil_2].
Qed.

(** X21. A format other than RAW, CFNTOOLS and SOFTWARE_CONFIG leaves
    the user data out: the message is the three fixed parts, the
    metadata, if any, and the watch-server URL. *)
Theorem build_userdata_other_format_drops_userdata
    (metadata : pyval) (userdata instance_user : option string)
    (user_data_format : string) :
  user_data_format <> "RAW" ->
  user_data_format <> "chef_validator_CFNTOOLS" ->
  user_data_format <> "SOFTWARE_CONFIG" ->
  build_userdata CONF repr dumps read_cloudinit_file message_from_string
    hostname as_string metadata userdata instance_user user_data_format
  = Return (Some (as_string
      (base_parts read_cloudinit_file instance_user ++
       metadata_parts dumps metadata ++ [watch_part CONF])%list)).
Proof.
  intros Hraw Hcfn Hsc. apply String.eqb_neq in Hraw, Hcfn, Hsc.
  rewrite build_userdata_unfold by assumption. cbn zeta.
  rewrite Hcfn, Hsc, !app_nil_l, app_nil_r.
  erewrite mapM_Forall2; [reflexivity|].
  apply Forall2_app; [apply base_parts_made|].
  apply Forall2_app; [apply metadata_parts_made|].
  apply Forall2_cons_2; [reflexivity | apply Forall2_nil_2].
Qed.

End Userdata.

(** The theorem at work: a multipart user data of two parts. *)
Lemma build_userdata_software_config_witness :
  build_userdata example_conf no_repr toy_dumps example_cloudinit
    (fun _ => Return example_message) (fun _ => None) example_as_string
    PyNone (Some "Content-Type: multipart/mixed") None "SOFTWARE_CONFIG"
  = Return (Some (example_as_string
      (base_parts example_cloudinit None ++
       [ {| mt_payload := Some "#!/bin/sh"; mt_subtype := "x-shellscript";
            mt_filename := Some "run.sh" |};
         {| mt_payload := Some "a: 1"; mt_subtype := "cloud-config";
            mt_filename := None |};
         watch_part example_conf ])%list)).
Proof.
  exact (proj1 (build_userdata_software_config example_conf no_repr toy_dumps
                  example_cloudinit (fun _ => Return example_message)
                  (fun _ => None) example_as_string
                  PyNone (Some "Content-Type: multipart/mixed") None)
           example_message
           [ (Some "#!/bin/sh", Some "run.sh", "x-shellscript");
             (Some "a: 1", None, "cloud-config") ]
           eq_refl (Nat.lt_0_succ 1) eq_refl eq_refl).
Defined.

(** The theorem at work: the format name of another engine. *)
Lemma build_userdata_other_format_witness :
  build_userdata example_conf no_repr toy_dumps example_cloudinit
    (fun _ => Raise TypeError) (fun _ => None) example_as_string
    PyNone (Some "#!/bin/sh") None "HEAT_CFNTOOLS"
  = Return (Some (example_as_string
      (base_parts example_cloudinit None ++ [watch_part example_conf])%list)).
Proof.
  refine (build_userdata_other_format_drops_userdata example_conf no_repr
            toy_dumps example_cloudinit (fun _ => Raise TypeError)
            (fun _ => None) example_as_string
            PyNone (Some "#!/bin/sh") None "HEAT_CFNTOOLS" _ _ _);
    discriminate.
Defined.

(** *** Console urls *)

(** X22. A console lookup, besides the unavailable type: a key that is
    none of the five supported types raises the key error, whatever the
    provider would answer; the answer of the provider is read at
    [console] and then [url], an answer without [console] raising the
    key error; an error of the provider that is no bad request
    propagates. *)
Theorem console_lookup_paths
    (call_console : console_method -> string -> result pyval) (key : string) :
  (key ∉ ["novnc"; "xvpvnc"; "spice-html5"; "rdp-html5"; "serial"] ->
   ConsoleUrls_getitem call_console key = Raise (KeyError key)) /\
  (forall method r console url, console_methods !! key = Some method ->
     call_console method key = Return r ->
     getitem r "console" = Return console ->
     getitem console "url" = Return url ->
     ConsoleUrls_getitem call_console key = Return url) /\
  (forall method d, console_methods !! key = Some method ->
     call_console method key = Return (PyDict d) -> d !! "console" = None ->
     ConsoleUrls_getitem call_console key = Raise (KeyError "console")) /\
  (forall method ex, console_methods !! key = Some method ->
     call_console method key = Raise ex -> is_bad_request ex = false ->
     ConsoleUrls_getitem call_console key = Raise ex).
Proof.
  unfold ConsoleUrls_getitem. split; [|split; [|split]].
  - intros Hkey.
    assert (Hnone : console_methods !! key = None).
    { apply not_elem_of_dom. intros Hin. apply Hkey.
      assert (Hdom : dom console_methods =
                     list_to_set ["novnc"; "xvpvnc"; "spice-html5";
                                  "rdp-html5"; "serial"]).
      { unfold console_methods. rewrite dom_list_to_map_L. reflexivity. }
      rewrite Hdom in Hin. now apply elem_of_list_to_set in Hin. }
    now rewrite Hnone.
  - intros method r console url -> -> Hc Hu. cbn [mbind result_bind].
    rewrite Hc. cbn [mbind result_bind]. now rewrite Hu.
  - intros method d -> -> Hd. cbn. now rewrite Hd.
  - intros method ex -> -> Hbad. cbn [mbind result_bind].
    destruct ex as [e| | | | | | | |]; try reflexivity.
    cbn in Hbad. now rewrite Hbad.
Qed.

(** The theorem at work: a console the server has, and a type that is
    none. *)
Lemma console_lookup_paths_witness :
  ConsoleUrls_getitem
    (fun _ _ => Return (PyDict {[ "console" :=
        PyDict {[ "type" := PyStr "novnc";
                  "url" := PyStr "http://vnc.example.com/?token=t" ]} ]}))
    "novnc" = Return (PyStr "http://vnc.example.com/?token=t") /\
  ConsoleUrls_getitem (fun _ _ => Raise TypeError) "telnet"
  = Raise (KeyError "telnet").
Proof.
  split.
  - eapply (proj1 (proj2 (console_lookup_paths _ "novnc")));
      reflexivity.
  - apply (proj1 (console_lookup_paths (fun _ _ => Raise TypeError) "telnet")).
    rewrite !elem_of_cons, elem_of_nil. intuition discriminate.
Defined.

End NovaMoreSpec.

(* ===================================================================== *)
(** ** Further properties of the password gateway *)
(* ===================================================================== *)
Module AuthMoreSpec.
Import Py AuthPassword PyFacts Terms MoreTerms.

Lemma getitem_None (m : gmap string pyval) (k : string) :
  m !! k = None -> getitem (PyDict m) k = Raise (KeyError k).
Proof. unfold getitem. now intros ->. Qed.

(** Headers that were built are the nine entries of the dict literal. *)
Lemma build_user_headers_shape (token_info : pyval) (headers : gmap string pyval) :
  _build_user_headers token_info = Return headers ->
  exists ident,
    headers = user_headers (keystone_token_info ident) (tenant_id ident)
                (tenant_name ident) (user_id ident) (user_name ident)
                (roles ident) (service_catalog ident) (auth_token ident).
Proof.
  unfold _build_user_headers.
  destruct (dict_get token_info "version") as [version|e];
    cbn [mbind result_bind]; [|discriminate].
  match goal with
  | |- (?c ≫= _) = _ -> _ => destruct c as [ident|e]
  end; cbn [mbind result_bind]; [|discriminate].
  intros [= <-]. now exists ident.
Qed.

Lemma user_headers_dom (a b c d e : pyval) (r : string) (f g : pyval) :
  dom (user_headers a b c d e r f g) = list_to_set identity_keys.
Proof. unfold user_headers. rewrite dom_list_to_map_L. reflexivity. Qed.

(** X24. The identity headers cannot be supplied by the request: whenever
    headers are built from a token, they are exactly the nine identity
    entries, status Confirmed among them, and in the environment handed
    to the application each of the nine has the value built from the
    token, whatever the request carried under that key, while every
    other entry of the request is kept. *)
Theorem identity_headers_override_request
    (token_info : pyval) (headers : gmap string pyval) :
  _build_user_headers token_info = Return headers ->
  dom headers = list_to_set identity_keys /\
  headers !! "HTTP_X_IDENTITY_STATUS" = Some (PyStr "Confirmed") /\
  (forall env k, k ∈ identity_keys ->
     is_Some (headers !! k) /\ (headers ∪ env) !! k = headers !! k) /\
  (forall env k, k ∉ identity_keys -> (headers ∪ env) !! k = env !! k).
Proof.
  intros Hb. apply build_user_headers_shape in Hb as [ident ->].
  pose proof (user_headers_dom (keystone_token_info ident) (tenant_id ident)
                (tenant_name ident) (user_id ident) (user_name ident)
                (roles ident) (service_catalog ident) (auth_token ident))
    as Hdom.
  split; [exact Hdom|]. split; [reflexivity|]. split.
  - intros env k Hk.
    assert (Hsome : is_Some (user_headers (keystone_token_info ident)
                     (tenant_id ident) (tenant_name ident) (user_id ident)
                     (user_name ident) (roles ident) (service_catalog ident)
                     (auth_token ident) !! k)).
    { apply elem_of_dom. rewrite Hdom. now apply elem_of_list_to_set. }
    split; [exact Hsome|]. destruct Hsome as [v Hv].
    rewrite Hv. now apply lookup_union_Some_l.
  - intros env k Hk. apply lookup_union_r. apply not_elem_of_dom.
    rewrite Hdom. now rewrite elem_of_list_to_set.
Qed.

(** The theorem at work: a request that carries roles of its own. *)
Lemma identity_headers_override_witness :
  (user_headers (PyDict {[ "token" := PyDict v3_example ]})
     (PyStr "p1") (PyStr "demo") (PyStr "u1") (PyStr "alice")
     "admin,member" PyNone (PyStr "tok-3")
   ∪ {[ "HTTP_X_ROLES" := PyStr "root"; "PATH_INFO" := PyStr "/v1" ]})
  !! "HTTP_X_ROLES" = Some (PyStr "admin,member").
Proof.
  pose proof (identity_headers_override_request (PyDict v3_example) _ eq_refl)
    as (_ & _ & Hover & _).
  destruct (Hover {[ "HTTP_X_ROLES" := PyStr "root";
                     "PATH_INFO" := PyStr "/v1" ]} "HTTP_X_ROLES")
    as [_ Hk].
  - unfold identity_keys. rewrite !elem_of_cons. tauto.
  - exact Hk.
Defined.

Section Gateway.
Variable repr : pyval -> string.
Variable get_access : pyval -> pyval -> pyval -> pyval -> result pyval.
Variable app : gmap string pyval -> response.


(** X25. A token the extraction cannot read is no authentication failure:
    when the auth service answers a v3 token without [project], or a
    token whose version is not "v3" and that has no [token] entry, the
    gateway raises the key error of the missing entry, after asking the
    auth service and without calling the application or answering
    401. *)
Theorem gateway_unreadable_token (env token_info : gmap string pyval)
    (missing : string) :
  truthy (env_get env "HTTP_X_AUTH_USER") = true ->
  get_access (env_get env "HTTP_X_AUTH_USER") (env_get env "HTTP_X_AUTH_KEY")
    (env_get env "HTTP_X_AUTH_USER") (env_get env "HTTP_X_AUTH_URL")
  = Return (PyDict token_info) ->
  (token_info !! "version" = Some (PyStr "v3") /\
   token_info !! "project" = None /\ missing = "project") \/
  (eq_str (default PyNone (token_info !! "version")) "v3" = false /\
   token_info !! "token" = None /\ missing = "token") ->
  call repr get_access app env = ([asked env], Raise (KeyError missing)).
Proof.
  intros Huser Hacc Hshape. unfold call.
  fold (env_get env "HTTP_X_AUTH_USER") (env_get env "HTTP_X_AUTH_KEY")
       (env_get env "HTTP_X_AUTH_URL").
  rewrite Huser. cbn [negb]. rewrite Hacc.
  assert (Hraise : _build_user_headers (PyDict token_info)
                   = Raise (KeyError missing)).
  { unfold _build_user_headers, dict_get. cbn [mbind result_bind].
    destruct Hshape as [(Hv & Hp & ->) | (Hv & Ht & ->)].
    - rewrite Hv.
      change (eq_str (default PyNone (Some (PyStr "v3"))) "v3") with true.
      cbn iota. now rewrite (getitem_None _ _ Hp).
    - rewrite Hv. now rewrite (getitem_None _ _ Ht). }
  now rewrite Hraise.
Qed.

(** X19. The challenge of a rejection quotes the X-Auth-URL header of the
    request, and reads [Keystone uri='None'] for a request without that
    header; the answer is 401 in both cases. *)
Theorem reject_request_challenge (env : gmap string pyval) :
  resp_status (_reject_request repr env (env_get env "HTTP_X_AUTH_URL")) = 401
  /\
  (forall url, env !! "HTTP_X_AUTH_URL" = Some (PyStr url) ->
     resp_headers (_reject_request repr env (env_get env "HTTP_X_AUTH_URL"))
     = [("WWW-Authenticate", "Keystone uri='" +:+ url +:+ "'")]) /\
  (env !! "HTTP_X_AUTH_URL" = None ->
   resp_headers (_reject_request repr env (env_get env "HTTP_X_AUTH_URL"))
   = [("WWW-Authenticate", "Keystone uri='None'")]).
Proof.
  unfold env_get. split; [reflexivity|]. split.
  - now intros url ->.
  - now intros ->.
Qed.

End Gateway.

(** The theorem at work: a v3 token that lost its version is read as a
    v2 token. *)
Lemma gateway_unreadable_token_witness :
  call no_repr
    (fun _ _ _ _ => Return (PyDict (delete "version" v3_example)))
    example_app example_env
  = ([asked example_env], Raise (KeyError "token")).
Proof.
  apply (gateway_unreadable_token no_repr
           (fun _ _ _ _ => Return (PyDict (delete "version" v3_example)))
           example_app example_env (delete "version" v3_example) "token");
    [reflexivity | reflexivity |].
  right. repeat split; reflexivity.
Defined.

End AuthMoreSpec.
